(** * crypto_price_bot.py: the price bot, embedded and verified

    The bot keeps one channel message up to date with crypto prices.  Its
    handlers are embedded as functions in a small monad that threads the
    module-level state ([message_id], the armed jobs), collects the calls
    made to the outside (HTTP GETs, Telegram calls, log records) in a trace
    and propagates Python exceptions.  Results of the outside calls come from
    a [world] record, one per handler invocation.

    Python floats are IEEE 754 binary64 numbers, taken from [SpecFloat] with
    the binary64 parameters. *)

From Stdlib Require Import ZArith List String Ascii Bool Lia SpecFloat DecimalString.
Import ListNotations.

Open Scope string_scope.
Open Scope Z_scope.

(** ** Binary64 arithmetic *)

Module Float64.

Definition prec : Z := 53.
Definition emax : Z := 1024.

Definition add : spec_float -> spec_float -> spec_float := SFadd prec emax.
Definition mul : spec_float -> spec_float -> spec_float := SFmul prec emax.
Definition div : spec_float -> spec_float -> spec_float := SFdiv prec emax.

(** The binary64 number nearest to an integer (ties to even). *)
Definition of_Z (z : Z) : spec_float := binary_normalize prec emax z 0 false.

Definition is_finite (f : spec_float) : bool :=
  match f with
  | S754_zero _ | S754_finite _ _ _ => true
  | S754_infinity _ | S754_nan => false
  end.

Definition is_zero (f : spec_float) : bool :=
  match f with
  | S754_zero _ => true
  | _ => false
  end.

End Float64.

(** ** Python values, exceptions and the built-ins the bot uses *)

(** What [response.json()] can return, and what the module's variables hold.
    A dict is kept as an association list, searched from the front. *)
#[local] Set Warnings "-register-all".

Inductive pyval : Type :=
| VNone
| VBool (b : bool)
| VInt (z : Z)
| VFloat (f : spec_float)
| VStr (s : string)
| VList (l : list pyval)
| VDict (d : list (string * pyval)).

Inductive exn_class : Type :=
| KeyError
| IndexError
| TypeError
| ValueError
| OverflowError
| OtherError (name : string).

(** An exception object: its class and [str(e)].  Every class here derives
    from [Exception], so [except Exception] catches all of them.  The wording
    of the interpreter's own messages differs between Python versions; no
    statement below depends on it. *)
Record exn : Type := Exn { exn_class_of : exn_class; exn_str : string }.

Inductive outcome (A : Type) : Type :=
| Return (a : A)
| Raise (e : exn).

Arguments Return {A} a.
Arguments Raise {A} e.

Definition obind {A B : Type} (o : outcome A) (k : A -> outcome B) : outcome B :=
  match o with
  | Return a => k a
  | Raise e => Raise e
  end.

Module Py.

(** [bool(v)], as [if not v] tests it. *)
Definition truthy (v : pyval) : bool :=
  match v with
  | VNone => false
  | VBool b => b
  | VInt z => negb (z =? 0)
  | VFloat f => negb (Float64.is_zero f)
  | VStr s => negb (String.length s =? 0)%nat
  | VList l => negb (List.length l =? 0)%nat
  | VDict d => negb (List.length d =? 0)%nat
  end.

Fixpoint assoc (k : string) (d : list (string * pyval)) : option pyval :=
  match d with
  | [] => None
  | (k', v) :: d' => if String.eqb k k' then Some v else assoc k d'
  end.

Definition type_name (v : pyval) : string :=
  match v with
  | VNone => "NoneType"
  | VBool _ => "bool"
  | VInt _ => "int"
  | VFloat _ => "float"
  | VStr _ => "str"
  | VList _ => "list"
  | VDict _ => "dict"
  end.

Definition not_subscriptable {A : Type} (v : pyval) : outcome A :=
  Raise (Exn TypeError ("'" ++ type_name v ++ "' object is not subscriptable")).

(** [obj[k]] for a string literal [k]. *)
Definition getitem_str (obj : pyval) (k : string) : outcome pyval :=
  match obj with
  | VDict d =>
      match assoc k d with
      | Some v => Return v
      | None => Raise (Exn KeyError ("'" ++ k ++ "'"))
      end
  | VList _ => Raise (Exn TypeError "list indices must be integers or slices, not str")
  | VStr _ => Raise (Exn TypeError "string indices must be integers, not 'str'")
  | _ => not_subscriptable obj
  end.

(** A str is held as its UTF-8 bytes; indexing it counts code points. *)
Definition is_continuation (c : ascii) : bool :=
  let n := N_of_ascii c in ((128 <=? n) && (n <? 192))%N.

Fixpoint code_points_aux (s : string) : string * list string :=
  match s with
  | EmptyString => (EmptyString, [])
  | String c rest =>
      let '(pending, chars) := code_points_aux rest in
      if is_continuation c then (String c pending, chars)
      else (EmptyString, String c pending :: chars)
  end.

Definition code_points (s : string) : list string :=
  let '(pending, chars) := code_points_aux s in
  match pending with
  | EmptyString => chars
  | _ => pending :: chars
  end.

(** A sequence index: negative indices count from the end. *)
Definition seq_index {A : Type} (l : list A) (i : Z) : option A :=
  let n := Z.of_nat (List.length l) in
  let j := if i <? 0 then i + n else i in
  if (j <? 0) || (n <=? j) then None else nth_error l (Z.to_nat j).

(** [obj[i]] for an integer literal [i].  A dict decoded from JSON has only
    str keys, so an int is never among them. *)
Definition getitem_int (obj : pyval) (i : Z) : outcome pyval :=
  match obj with
  | VList l =>
      match seq_index l i with
      | Some v => Return v
      | None => Raise (Exn IndexError "list index out of range")
      end
  | VStr s =>
      match seq_index (code_points s) i with
      | Some c => Return (VStr c)
      | None => Raise (Exn IndexError "string index out of range")
      end
  | VDict _ => Raise (Exn KeyError (NilZero.string_of_int (Z.to_int i)))
  | _ => not_subscriptable obj
  end.

(** [float(n)] for an int: the nearest binary64, or OverflowError. *)
Definition int_to_float (z : Z) : outcome spec_float :=
  let f := Float64.of_Z z in
  if Float64.is_finite f then Return f
  else Raise (Exn OverflowError "int too large to convert to float").

Definition bool_to_Z (b : bool) : Z := if b then 1 else 0.

(** The part of the interpreter the model leaves open: the built-in [float]
    applied to a str gives [Some f] when the text is a float literal and
    [None] when [float] raises ValueError. *)
Class Builtins : Type := { float_of_str : string -> option spec_float }.

(** [float(v)]. *)
Definition float {bi : Builtins} (v : pyval) : outcome spec_float :=
  match v with
  | VFloat f => Return f
  | VInt z => int_to_float z
  | VBool b => int_to_float (bool_to_Z b)
  | VStr s =>
      match float_of_str s with
      | Some f => Return f
      | None => Raise (Exn ValueError ("could not convert string to float: '" ++ s ++ "'"))
      end
  | _ => Raise (Exn TypeError
           ("float() argument must be a string or a real number, not '" ++ type_name v ++ "'"))
  end.

Fixpoint repeat_string (n : nat) (s : string) : string :=
  match n with
  | O => EmptyString
  | S n' => s ++ repeat_string n' s
  end.

Fixpoint repeat_list {A : Type} (n : nat) (l : list A) : list A :=
  match n with
  | O => []
  | S n' => (l ++ repeat_list n' l)%list
  end.

(** [v * n] for an int literal [n]: numbers multiply, sequences repeat. *)
Definition mul_int (v : pyval) (n : Z) : outcome pyval :=
  match v with
  | VInt z => Return (VInt (z * n))
  | VBool b => Return (VInt (bool_to_Z b * n))
  | VFloat f => obind (int_to_float n) (fun g => Return (VFloat (Float64.mul f g)))
  | VStr s => Return (VStr (repeat_string (Z.to_nat n) s))
  | VList l => Return (VList (repeat_list (Z.to_nat n) l))
  | VNone | VDict _ =>
      Raise (Exn TypeError
        ("unsupported operand type(s) for *: '" ++ type_name v ++ "' and 'int'"))
  end.

End Py.

(** ** Number formatting: the format specs [,.2f] and [,.0f] *)

Module Fmt.

Definition digit_char (d : Z) : ascii := ascii_of_N (48 + Z.to_N d).

Definition is_digit (c : ascii) : bool :=
  let n := N_of_ascii c in ((48 <=? n) && (n <=? 57))%N.

Fixpoint all_digits (s : string) : bool :=
  match s with
  | EmptyString => true
  | String c r => is_digit c && all_digits r
  end.

(** The decimal digits of a natural number, most significant first. *)
Definition int_digits (n : Z) : string := NilZero.string_of_uint (N.to_uint (Z.to_N n)).

(** The last [p] decimal digits of [n], zero padded. *)
Fixpoint frac_digits (p : nat) (n : Z) : string :=
  match p with
  | O => EmptyString
  | S p' => frac_digits p' (n / 10) ++ String (digit_char (n mod 10)) EmptyString
  end.

(** The [,] option: a comma before every group of three digits, counted from
    the right. *)
Fixpoint group3 (s : string) : string :=
  match s with
  | EmptyString => EmptyString
  | String c r =>
      String c
        (if (negb (String.length r =? 0) && (String.length r mod 3 =? 0))%nat
         then String "," (group3 r) else group3 r)
  end.

(** [num / den] rounded to the nearest integer, ties to even. *)
Definition round_half_even (num den : Z) : Z :=
  let q := num / den in
  let r := num mod den in
  match 2 * r ?= den with
  | Lt => q
  | Gt => q + 1
  | Eq => if Z.even q then q else q + 1
  end.

(** [m * 2^e * 10^p], correctly rounded to an integer. *)
Definition scaled (p : nat) (m : positive) (e : Z) : Z :=
  match e with
  | Zneg k => round_half_even (Zpos m * 10 ^ Z.of_nat p) (2 ^ Zpos k)
  | _ => Zpos m * 2 ^ e * 10 ^ Z.of_nat p
  end.

(** [n / 10^p] in fixed-point notation with [p] decimals; no point when
    [p] is zero. *)
Definition fixed (p : nat) (n : Z) : string :=
  group3 (int_digits (n / 10 ^ Z.of_nat p)) ++
  match p with
  | O => EmptyString
  | S _ => "." ++ frac_digits p (n mod 10 ^ Z.of_nat p)
  end.

Definition sign (s : bool) : string := if s then "-" else EmptyString.

(** [format(x, ',.pf')] for a float [x]. *)
Definition format_float (p : nat) (x : spec_float) : string :=
  match x with
  | S754_nan => "nan"
  | S754_infinity s => sign s ++ "inf"
  | S754_zero s => sign s ++ fixed p 0
  | S754_finite s m e => sign s ++ fixed p (scaled p m e)
  end.

(** [format(v, ',.pf')], as an f-string field [{v:,.pf}] evaluates it: an int
    or bool is converted to float first, other types reject the spec. *)
Definition format_f (p : nat) (v : pyval) : outcome string :=
  match v with
  | VFloat x => Return (format_float p x)
  | VInt z => obind (Py.int_to_float z) (fun x => Return (format_float p x))
  | VBool b => obind (Py.int_to_float (Py.bool_to_Z b)) (fun x => Return (format_float p x))
  | VStr _ => Raise (Exn ValueError "Unknown format code 'f' for object of type 'str'")
  | _ => Raise (Exn TypeError
           ("unsupported format string passed to " ++ Py.type_name v ++ ".__format__"))
  end.

End Fmt.

(** ** The outside world, the trace and the handler monad *)

Inductive level : Type := DEBUG | ERROR.

(** A log message is an f-string: literal text and interpolated values. *)
Inductive frag : Type :=
| Lit (s : string)
| Interp (v : pyval).

(** [requests.Response], as far as the bot looks at it; [json] is what
    [response.json()] does: return the decoded body or raise. *)
Record response : Type := Response {
  status_code : Z;
  text : string;
  json : outcome pyval
}.

Record datetime : Type := Datetime {
  year : nat; month : nat; day : nat;
  hour : nat; minute : nat; second : nat
}.

(** A repeating job of the job queue; its callback is always [update_price]. *)
Record job : Type := Job { interval : Z; first : Z }.

(** Calls that leave the process, in the order they are made: log records,
    requests, readings of the clock ([datetime.now(tz).strftime(fmt)], with
    the name of the zone and the format asked for) and the calls of the bot.
    A call is recorded when it is issued, whether it then succeeds or
    raises. *)
Inductive event : Type :=
| EvLog (lvl : level) (msg : list frag)
| EvHttpGet (url : string)
| EvDatetimeNow (tz : string) (fmt : string)
| EvGetChat (chat_id : string)
| EvSendMessage (chat_id : string) (body : string)
| EvEditMessageText (chat_id : string) (mid : pyval) (body : string)
| EvRunRepeating (j : job)
| EvReplyText (body : string).

(** What the outside answers during one handler invocation. *)
Record world : Type := World {
  requests_get : string -> outcome response;
  datetime_now : string -> datetime;
  bot_get_chat : string -> outcome string;
  (* the [message_id] attribute of the Message that was sent *)
  bot_send_message : string -> string -> outcome pyval;
  bot_edit_message_text : string -> pyval -> string -> outcome unit;
  job_queue_run_repeating : job -> outcome unit;
  message_reply_text : string -> outcome unit
}.

(** The process state: the module variable [message_id], the job queue and
    the [job] entry of the chat data. *)
Record state : Type := State {
  message_id : pyval;
  jobs : list job;
  chat_data_job : option job
}.

Definition initial_state : state :=
  {| message_id := VNone; jobs := []; chat_data_job := None |}.

Definition M (A : Type) : Type := state -> outcome A * state * list event.

Definition ret {A : Type} (a : A) : M A := fun s => (Return a, s, []).

Definition bind {A B : Type} (m : M A) (k : A -> M B) : M B :=
  fun s =>
    match m s with
    | (Return a, s1, t1) => let '(r, s2, t2) := k a s1 in (r, s2, (t1 ++ t2)%list)
    | (Raise e, s1, t1) => (Raise e, s1, t1)
    end.

(** [try: body except Exception as e: handler e]. *)
Definition try_except {A : Type} (body : M A) (handler : exn -> M A) : M A :=
  fun s =>
    match body s with
    | (Return a, s1, t1) => (Return a, s1, t1)
    | (Raise e, s1, t1) => let '(r, s2, t2) := handler e s1 in (r, s2, (t1 ++ t2)%list)
    end.

Definition lift {A : Type} (o : outcome A) : M A := fun s => (o, s, []).

Definition emit (ev : event) : M unit := fun s => (Return tt, s, [ev]).

(** An outside call: recorded, then answered by the world. *)
Definition call {A : Type} (ev : event) (answer : outcome A) : M A :=
  fun s => (answer, s, [ev]).

Definition log (lvl : level) (msg : list frag) : M unit := emit (EvLog lvl msg).

Definition read_message_id : M pyval := fun s => (Return (message_id s), s, []).

Definition write_message_id (v : pyval) : M unit :=
  fun s => (Return tt, {| message_id := v; jobs := jobs s; chat_data_job := chat_data_job s |}, []).

Definition add_job (j : job) : M unit :=
  fun s => (Return tt, {| message_id := message_id s; jobs := (jobs s ++ [j])%list;
                          chat_data_job := chat_data_job s |}, []).

Definition write_chat_data_job (j : job) : M unit :=
  fun s => (Return tt, {| message_id := message_id s; jobs := jobs s;
                          chat_data_job := Some j |}, []).

Declare Scope py_scope.
Delimit Scope py_scope with py.
Notation "x <- m ;; k" := (bind m (fun x => k))
  (at level 100, m at next level, right associativity) : py_scope.
Notation "m ;; k" := (bind m (fun _ => k))
  (at level 100, right associativity) : py_scope.

Definition outcome_of {A : Type} (r : outcome A * state * list event) : outcome A := fst (fst r).
Definition state_of {A : Type} (r : outcome A * state * list event) : state := snd (fst r).
Definition trace_of {A : Type} (r : outcome A * state * list event) : list event := snd r.

(** ** The bot *)

Definition nl : string := String (ascii_of_nat 10) EmptyString.

Definition MARKET_URL : string :=
  "https://api.coingecko.com/api/v3/simple/price?ids=bitcoin,ethereum,solana,tether&vs_currencies=usd".
Definition EXCHANGE_RATES_URL : string := "https://api.coingecko.com/api/v3/exchange_rates".
Definition ORDERBOOK_URL : string := "https://api.nobitex.ir/v2/orderbook/USDTIRT".

Definition zero_pad (width : nat) (n : nat) : string :=
  let d := Fmt.int_digits (Z.of_nat n) in
  Py.repeat_string (width - String.length d) "0" ++ d.

(** [strftime("%Y-%m-%d %H:%M:%S")].  The year is written as it is: the C
    library behind [%Y] pads a year below 1000 on some platforms only, from
    1000 on all agree. *)
Definition strftime (t : datetime) : string :=
  Fmt.int_digits (Z.of_nat (year t)) ++ "-" ++
  zero_pad 2 (month t) ++ "-" ++ zero_pad 2 (day t) ++ " " ++
  zero_pad 2 (hour t) ++ ":" ++ zero_pad 2 (minute t) ++ ":" ++ zero_pad 2 (second t).

(** The four lines of the message, around the formatted fields. *)
Definition price_block (btc eth sol irr : string) : string :=
  "💰 Bitcoin (BTC): $" ++ btc ++ nl ++
  "💎 Ethereum (ETH): $" ++ eth ++ nl ++
  "✨ Solana (SOL): $" ++ sol ++ nl ++
  "💵 Tether (USDT): " ++ irr ++ " ریال".

(** The f-string that builds [message_text]; its fields are formatted from
    left to right and the first one that raises ends the evaluation. *)
Definition message_text (btc_price eth_price sol_price usdt_irr_rate : pyval) : outcome string :=
  obind (Fmt.format_f 2 btc_price) (fun btc =>
  obind (Fmt.format_f 2 eth_price) (fun eth =>
  obind (Fmt.format_f 2 sol_price) (fun sol =>
  obind (Fmt.format_f 0 usdt_irr_rate) (fun irr =>
  Return (price_block btc eth sol irr))))).

(** What a trace shows of the calls the specification speaks about. *)
Definition is_edit (ev : event) : bool :=
  match ev with EvEditMessageText _ _ _ => true | _ => false end.

Definition is_http_get (ev : event) : bool :=
  match ev with EvHttpGet _ => true | _ => false end.

Definition is_run_repeating (ev : event) : bool :=
  match ev with EvRunRepeating _ => true | _ => false end.

Definition is_log (ev : event) : bool :=
  match ev with EvLog _ _ => true | _ => false end.


Definition edit_calls (t : list event) : list event := filter is_edit t.
Definition http_gets (t : list event) : list event := filter is_http_get t.
Definition timers_armed (t : list event) : list event := filter is_run_repeating t.

(** A computation that leaves the process state as it found it. *)
Definition frames {A : Type} (m : M A) : Prop := forall s, state_of (m s) = s.

(** A computation that never lets an exception out. *)
Definition returns {A : Type} (m : M A) : Prop := forall s, exists a, outcome_of (m s) = Return a.

(** A computation all of whose outside calls satisfy [P]. *)
Definition emits_only {A : Type} (P : event -> Prop) (m : M A) : Prop :=
  forall s, Forall P (trace_of (m s)).

(** The configuration read at import time: [TELEGRAM_CHANNEL_ID]. *)
Class Config : Type := { CHANNEL_ID : string }.

Section Bot.

Context {cfg : Config} {bi : Py.Builtins}.

Local Open Scope py_scope.

(** [data['rates']['usd']['value']]. *)
Definition usd_value (data : pyval) : outcome pyval :=
  obind (obind (Py.getitem_str data "rates")
           (fun rates => Py.getitem_str rates "usd"))
           (fun usd => Py.getitem_str usd "value").

Definition get_exchange_rate (w : world) : M pyval :=
  try_except
    (response <- call (EvHttpGet EXCHANGE_RATES_URL) (requests_get w EXCHANGE_RATES_URL) ;;
     if status_code response =? 200 then
       data <- lift (json response) ;;
       usd_rate <- lift (usd_value data) ;;
       irr_rate <- lift (Py.mul_int usd_rate 50000) ;;
       ret irr_rate
     else
       log ERROR [Lit "Failed to get exchange rate: "; Lit (text response)] ;;
       ret (VInt 50000))
    (fun e =>
       log ERROR [Lit "Error getting exchange rate: "; Lit (exn_str e)] ;;
       ret (VInt 50000)).

(** [float(data[side][0][0])]. *)
Definition best_price (data : pyval) (side : string) : outcome spec_float :=
  obind (obind (obind (Py.getitem_str data side)
                 (fun book => Py.getitem_int book 0))
                 (fun entry => Py.getitem_int entry 0))
                 Py.float.

Definition get_usdt_irr_rate (w : world) : M pyval :=
  try_except
    (response <- call (EvHttpGet ORDERBOOK_URL) (requests_get w ORDERBOOK_URL) ;;
     if status_code response =? 200 then
       data <- lift (json response) ;;
       best_bid <- lift (best_price data "bids") ;;
       best_ask <- lift (best_price data "asks") ;;
       let average_rate := Float64.div (Float64.add best_bid best_ask) (Float64.of_Z 2) in
       ret (VFloat average_rate)
     else
       log ERROR [Lit "Failed to get USDT rate: "; Lit (text response)] ;;
       ret (VInt 50000))
    (fun e =>
       log ERROR [Lit "Error getting USDT rate: "; Lit (exn_str e)] ;;
       ret (VInt 50000)).

(** [data[asset]['usd']]. *)
Definition quote (data : pyval) (asset : string) : outcome pyval :=
  obind (Py.getitem_str data asset) (fun q => Py.getitem_str q "usd").

Definition update_price (w : world) : M unit :=
  mid <- read_message_id ;;
  if negb (Py.truthy mid) then
    log DEBUG [Lit "No message ID available for update"]
  else
    try_except
      (log DEBUG [Lit "Fetching crypto prices from CoinGecko API"] ;;
       response <- call (EvHttpGet MARKET_URL) (requests_get w MARKET_URL) ;;
       log DEBUG [Lit "API Response status: "; Interp (VInt (status_code response))] ;;
       if negb (status_code response =? 200) then
         log ERROR [Lit "API Error: "; Lit (text response)]
       else
         data <- lift (json response) ;;
         log DEBUG [Lit "Successfully parsed API response"] ;;
         btc_price <- lift (quote data "bitcoin") ;;
         eth_price <- lift (quote data "ethereum") ;;
         sol_price <- lift (quote data "solana") ;;
         usdt_usd <- lift (quote data "tether") ;;
         usdt_irr_rate <- get_usdt_irr_rate w ;;
         let tehran_tz := "Asia/Tehran" in
         current_time <- call (EvDatetimeNow tehran_tz "%Y-%m-%d %H:%M:%S")
                              (Return (strftime (datetime_now w tehran_tz))) ;;
         body <- lift (message_text btc_price eth_price sol_price usdt_irr_rate) ;;
         log DEBUG [Lit "Updating message with new prices"] ;;
         target <- read_message_id ;;
         call (EvEditMessageText CHANNEL_ID target body)
              (bot_edit_message_text w CHANNEL_ID target body) ;;
         log DEBUG [Lit "Message updated successfully"])
      (fun e =>
         log ERROR [Lit "Error updating price: "; Lit (exn_str e)] ;;
         log ERROR [Lit "Error details: "; Lit (exn_str e)]).

Definition error_message (e : exn) : string :=
  "Error starting the bot. Please check:" ++ nl ++
  "1. The bot is an admin in the channel" ++ nl ++
  "2. The bot has permission to send and edit messages" ++ nl ++
  "3. The channel ID is correct" ++ nl ++
  "Error details: " ++ exn_str e ++ nl ++
  "Channel ID used: " ++ CHANNEL_ID.

Definition start (w : world) : M unit :=
  log DEBUG [Lit "Received /start command"] ;;
  try_except
    (log DEBUG [Lit "Attempting to get chat info for "; Lit CHANNEL_ID] ;;
     chat <- call (EvGetChat CHANNEL_ID) (bot_get_chat w CHANNEL_ID) ;;
     log DEBUG [Lit "Chat info: "; Lit chat] ;;
     log DEBUG [Lit "Sending initial message to channel "; Lit CHANNEL_ID] ;;
     sent <- call (EvSendMessage CHANNEL_ID "Starting price updates...")
                  (bot_send_message w CHANNEL_ID "Starting price updates...") ;;
     write_message_id sent ;;
     mid <- read_message_id ;;
     log DEBUG [Lit "Message sent with ID: "; Interp mid] ;;
     let j := {| interval := 300; first := 0 |} in
     call (EvRunRepeating j) (job_queue_run_repeating w j) ;;
     add_job j ;;
     write_chat_data_job j ;;
     log DEBUG [Lit "Scheduled price updates every 5 minutes"] ;;
     log DEBUG [Lit "Performing initial price update"] ;;
     update_price w ;;
     log DEBUG [Lit "Initial price update completed"])
    (fun e =>
       log ERROR [Lit "Error starting bot: "; Lit (exn_str e)] ;;
       call (EvReplyText (error_message e)) (message_reply_text w (error_message e))).

(** *** The running process

    [run_polling] serves the stimuli one after the other: a [/start] command
    runs [start], a firing of an armed job runs [update_price].  An exception
    that leaves a handler is caught by the dispatcher, the process goes on. *)
Inductive stimulus : Type :=
| CmdStart (w : world)
| JobFires (w : world).

Definition step (s : state) (x : stimulus) : state * list event :=
  match x with
  | CmdStart w => let r := start w s in (state_of r, trace_of r)
  | JobFires w =>
      match jobs s with
      | [] => (s, [])
      | _ :: _ => let r := update_price w s in (state_of r, trace_of r)
      end
  end.

Fixpoint run (s : state) (xs : list stimulus) : state * list event :=
  match xs with
  | [] => (s, [])
  | x :: xs' =>
      let '(s1, t1) := step s x in
      let '(s2, t2) := run s1 xs' in
      (s2, (t1 ++ t2)%list)
  end.

Definition main (xs : list stimulus) : state * list event :=
  let '(s, t) := run initial_state xs in
  (s, (EvLog DEBUG [Lit "Starting bot..."]
       :: EvLog DEBUG [Lit "Bot is running and waiting for commands..."] :: t)).

End Bot.

(** *** The module body: reading the configuration

    What [os.getenv] gives for the two variables decides whether the module
    loads; the first characters of the token and the channel id are logged. *)
Record environ : Type := Environ {
  TELEGRAM_BOT_TOKEN : option string;
  TELEGRAM_CHANNEL_ID : option string
}.

Fixpoint join (parts : list string) : string :=
  match parts with
  | [] => EmptyString
  | x :: parts' => x ++ join parts'
  end.

(** [s[:n]], counted in code points. *)
Definition slice_to (n : nat) (s : string) : string := join (firstn n (Py.code_points s)).

(** Gives the token and the configuration, or raises as the module does when
    [not TOKEN] or [not CHANNEL_ID] holds (None and the empty str). *)
Definition module_body (env : environ) : outcome (string * Config) * list event :=
  match TELEGRAM_BOT_TOKEN env with
  | Some (String _ _ as TOKEN) =>
      match TELEGRAM_CHANNEL_ID env with
      | Some (String _ _ as channel) =>
          (Return (TOKEN, {| CHANNEL_ID := channel |}),
           [EvLog DEBUG [Lit "Bot token: "; Lit (slice_to 5 TOKEN); Lit "..."];
            EvLog DEBUG [Lit "Channel ID: "; Lit channel]])
      | _ =>
          (Raise (Exn ValueError "Please set the TELEGRAM_CHANNEL_ID environment variable"), [])
      end
  | _ => (Raise (Exn ValueError "Please set the TELEGRAM_BOT_TOKEN environment variable"), [])
  end.

(** ** Vocabulary of the specification *)

(** *** Shapes of the rendered text, in the words of the specification *)

Fixpoint comma_groups (gs : list string) : string :=
  match gs with
  | [] => EmptyString
  | g :: gs' => "," ++ g ++ comma_groups gs'
  end.

Definition digits_of_length (n : nat) (s : string) : Prop :=
  String.length s = n /\ Fmt.all_digits s = true.

(** Thousands separators: one to three digits, then groups of exactly three
    digits, each behind a comma. *)
Definition thousands (s : string) : Prop :=
  exists (g0 : string) (gs : list string),
    s = g0 ++ comma_groups gs
    /\ (1 <= String.length g0 <= 3)%nat /\ Fmt.all_digits g0 = true
    /\ Forall (digits_of_length 3) gs.

(** A number with thousands separators and exactly [p] decimal places (no
    decimal point when [p] is zero), after an optional minus sign. *)
Definition fixed_point (p : nat) (s : string) : Prop :=
  exists (neg : bool) (whole frac : string),
    s = Fmt.sign neg ++ whole ++ match p with O => EmptyString | S _ => "." ++ frac end
    /\ thousands whole /\ digits_of_length p frac.

(** A number that has a decimal expansion: an int, a bool or a float other
    than an infinity or a NaN. *)
Definition finite_number (v : pyval) : Prop :=
  match v with
  | VInt _ | VBool _ => True
  | VFloat x => Float64.is_finite x = true
  | _ => False
  end.



Fixpoint is_prefix (p s : string) : bool :=
  match p, s with
  | EmptyString, _ => true
  | String a p', String b s' => Ascii.eqb a b && is_prefix p' s'
  | String _ _, EmptyString => false
  end.


(** *** Where a minus sign can stand

    A timestamp has a digit right before a minus sign; the price block never
    has: that tells the two apart. *)





Section Vocabulary.

Context {cfg : Config} {bi : Py.Builtins}.

Definition ASSETS : list string := ["bitcoin"; "ethereum"; "solana"; "tether"].

(** The market quotes fetch fails: the request raises, the status is not 200,
    the body does not decode, or one of the four quotes is not in it. *)
Inductive market_fetch_fails (w : world) : Prop :=
| market_request_raises (e : exn) :
    requests_get w MARKET_URL = Raise e -> market_fetch_fails w
| market_bad_status (r : response) :
    requests_get w MARKET_URL = Return r -> status_code r <> 200 -> market_fetch_fails w
| market_bad_body (r : response) (e : exn) :
    requests_get w MARKET_URL = Return r -> status_code r = 200 ->
    json r = Raise e -> market_fetch_fails w
| market_quote_missing (r : response) (data : pyval) (asset : string) (e : exn) :
    requests_get w MARKET_URL = Return r -> status_code r = 200 ->
    json r = Return data -> In asset ASSETS -> quote data asset = Raise e ->
    market_fetch_fails w.

(** What [get_usdt_irr_rate] reads from a 200 response: the decoded body,
    then the best bid and the best ask. *)
Definition read_book (r : response) : outcome (spec_float * spec_float) :=
  obind (json r) (fun data =>
  obind (best_price data "bids") (fun best_bid =>
  obind (best_price data "asks") (fun best_ask =>
  Return (best_bid, best_ask)))).

(** The order-book fetch fails: the request raises, the status is not 200,
    or reading the body raises. *)
Inductive book_fetch_fails (w : world) : Prop :=
| book_request_raises (e : exn) :
    requests_get w ORDERBOOK_URL = Raise e -> book_fetch_fails w
| book_bad_status (r : response) :
    requests_get w ORDERBOOK_URL = Return r -> status_code r <> 200 -> book_fetch_fails w
| book_read_raises (r : response) (e : exn) :
    requests_get w ORDERBOOK_URL = Return r -> status_code r = 200 ->
    read_book r = Raise e -> book_fetch_fails w.

(** The market answers 200 with a body that holds the four quotes. *)
Definition market_quotes (w : world) (btc eth sol usdt : pyval) : Prop :=
  exists r data,
    requests_get w MARKET_URL = Return r /\ status_code r = 200 /\ json r = Return data
    /\ quote data "bitcoin" = Return btc /\ quote data "ethereum" = Return eth
    /\ quote data "solana" = Return sol /\ quote data "tether" = Return usdt.

(** The events [get_usdt_irr_rate] may leave: its request and log lines. *)
Definition book_event (ev : event) : Prop :=
  is_log ev = true \/ ev = EvHttpGet ORDERBOOK_URL.

(** An event other than a request to the exchange-rates endpoint. *)
Definition not_exchange_rates (ev : event) : Prop := ev <> EvHttpGet EXCHANGE_RATES_URL.

(** The destination check or the placeholder send raises [e]. *)
Inductive bootstrap_raises (w : world) (e : exn) : Prop :=
| get_chat_raises :
    bot_get_chat w CHANNEL_ID = Raise e -> bootstrap_raises w e
| send_message_raises (chat : string) :
    bot_get_chat w CHANNEL_ID = Return chat ->
    bot_send_message w CHANNEL_ID "Starting price updates..." = Raise e ->
    bootstrap_raises w e.

(** The events of a bootstrap before its timer, update or reply. *)
Definition bootstrap_event (ev : event) : Prop :=
  is_log ev = true \/ ev = EvGetChat CHANNEL_ID
  \/ ev = EvSendMessage CHANNEL_ID "Starting price updates...".

Definition five_minutes : job := {| interval := 300; first := 0 |}.

(** The edit call of a tick went through with the text [body]. *)
Definition successful_tick (w : world) (s : state) (body : string) : Prop :=
  edit_calls (trace_of (update_price w s)) = [EvEditMessageText CHANNEL_ID (message_id s) body]
  /\ bot_edit_message_text w CHANNEL_ID (message_id s) body = Return tt.

End Vocabulary.

(** *** Vocabulary for the rest of the code *)

Definition is_send (ev : event) : bool :=
  match ev with EvSendMessage _ _ => true | _ => false end.

Definition is_reply (ev : event) : bool :=
  match ev with EvReplyText _ => true | _ => false end.

Definition sends (t : list event) : list event := filter is_send t.

(** Reads a trace from the start: an edit call or a timer is only accepted
    once a message has been sent ([sent] says whether one was before). *)
Fixpoint acts_after_send (sent : bool) (t : list event) : bool :=
  match t with
  | [] => true
  | EvSendMessage _ _ :: t' => acts_after_send true t'
  | EvEditMessageText _ _ _ :: t' => sent && acts_after_send sent t'
  | EvRunRepeating _ :: t' => sent && acts_after_send sent t'
  | _ :: t' => acts_after_send sent t'
  end.

(** The events a tick may leave: log lines, requests, edit calls and the
    reading of the clock. *)
Definition tick_event (ev : event) : Prop :=
  is_log ev = true \/ is_http_get ev = true \/ is_edit ev = true
  \/ ev = EvDatetimeNow "Asia/Tehran" "%Y-%m-%d %H:%M:%S".

(** The events [get_exchange_rate] may leave: its request and log lines. *)
Definition exchange_event (ev : event) : Prop :=
  is_log ev = true \/ ev = EvHttpGet EXCHANGE_RATES_URL.

(** The format spec [,.pf] accepts the value. *)
Definition formats (p : nat) (v : pyval) : Prop := exists x, Fmt.format_f p v = Return x.

Fixpoint count_char (c : ascii) (s : string) : nat :=
  match s with
  | EmptyString => O
  | String a r => ((if Ascii.eqb a c then 1 else 0) + count_char c r)%nat
  end.

(** The characters number formatting can produce. *)
Definition field_char (c : ascii) : bool :=
  Fmt.is_digit c || Ascii.eqb c "," || Ascii.eqb c "." || Ascii.eqb c "-"
  || Ascii.eqb c "i" || Ascii.eqb c "n" || Ascii.eqb c "f" || Ascii.eqb c "a".

Fixpoint field_text (s : string) : bool :=
  match s with
  | EmptyString => true
  | String c r => field_char c && field_text r
  end.

Section MoreVocabulary.

Context {cfg : Config} {bi : Py.Builtins}.

(** The exchange-rates fetch fails: the request raises, the status is not
    200, the body does not decode, the value is not in it or cannot be
    multiplied. *)
Inductive exchange_fetch_fails (w : world) : Prop :=
| exchange_request_raises (e : exn) :
    requests_get w EXCHANGE_RATES_URL = Raise e -> exchange_fetch_fails w
| exchange_bad_status (r : response) :
    requests_get w EXCHANGE_RATES_URL = Return r -> status_code r <> 200 ->
    exchange_fetch_fails w
| exchange_bad_body (r : response) (e : exn) :
    requests_get w EXCHANGE_RATES_URL = Return r -> status_code r = 200 ->
    json r = Raise e -> exchange_fetch_fails w
| exchange_value_missing (r : response) (data : pyval) (e : exn) :
    requests_get w EXCHANGE_RATES_URL = Return r -> status_code r = 200 ->
    json r = Return data -> usd_value data = Raise e -> exchange_fetch_fails w
| exchange_value_unfit (r : response) (data usd_rate : pyval) (e : exn) :
    requests_get w EXCHANGE_RATES_URL = Return r -> status_code r = 200 ->
    json r = Return data -> usd_value data = Return usd_rate ->
    Py.mul_int usd_rate 50000 = Raise e -> exchange_fetch_fails w.

(** A side of the book from which no best price can be taken: the key is
    missing or its list is empty. *)
Definition side_unreadable (d : list (string * pyval)) (side : string) : Prop :=
  Py.assoc side d = None \/ Py.assoc side d = Some (VList []).

(** The identifier a start command gets back for its placeholder, if the
    destination check and the send go through. *)
Definition sent_id (x : stimulus) : list pyval :=
  match x with
  | CmdStart w =>
      match bot_get_chat w CHANNEL_ID,
            bot_send_message w CHANNEL_ID "Starting price updates..." with
      | Return _, Return mid => [mid]
      | _, _ => []
      end
  | JobFires _ => []
  end.

(** The state a bootstrap leaves once its placeholder is sent and its job
    armed. *)
Definition bootstrapped (s : state) (mid : pyval) : state :=
  {| message_id := mid; jobs := (jobs s ++ [five_minutes])%list;
     chat_data_job := Some five_minutes |}.

(** The calls of a bootstrap up to its first update. *)
Definition bootstrap_calls (chat : string) (mid : pyval) : list event :=
  [EvLog DEBUG [Lit "Received /start command"];
   EvLog DEBUG [Lit "Attempting to get chat info for "; Lit CHANNEL_ID];
   EvGetChat CHANNEL_ID;
   EvLog DEBUG [Lit "Chat info: "; Lit chat];
   EvLog DEBUG [Lit "Sending initial message to channel "; Lit CHANNEL_ID];
   EvSendMessage CHANNEL_ID "Starting price updates...";
   EvLog DEBUG [Lit "Message sent with ID: "; Interp mid];
   EvRunRepeating five_minutes;
   EvLog DEBUG [Lit "Scheduled price updates every 5 minutes"];
   EvLog DEBUG [Lit "Performing initial price update"]].

(** The calls of a bootstrap whose timer call raises [e], up to its reply. *)
Definition unarmed_calls (chat : string) (mid : pyval) (e : exn) : list event :=
  [EvLog DEBUG [Lit "Received /start command"];
   EvLog DEBUG [Lit "Attempting to get chat info for "; Lit CHANNEL_ID];
   EvGetChat CHANNEL_ID;
   EvLog DEBUG [Lit "Chat info: "; Lit chat];
   EvLog DEBUG [Lit "Sending initial message to channel "; Lit CHANNEL_ID];
   EvSendMessage CHANNEL_ID "Starting price updates...";
   EvLog DEBUG [Lit "Message sent with ID: "; Interp mid];
   EvRunRepeating five_minutes;
   EvLog ERROR [Lit "Error starting bot: "; Lit (exn_str e)]].

Definition is_start (x : stimulus) : bool :=
  match x with CmdStart _ => true | JobFires _ => false end.

End MoreVocabulary.

(** ** A concrete setting

    [float] on ASCII decimal literals: an optional sign, digits with an
    optional fraction, an optional exponent, and the names inf, infinity and
    nan; the value is rounded to the nearest binary64, ties to even.  Blanks
    around the literal, underscores and non-ASCII digits, which [float] also
    reads, are left to other instances of [Py.Builtins]. *)

Module Decimal.

Definition digit_value (c : ascii) : Z := Z.of_N (N_of_ascii c) - 48.

(** Reads the digits [s] starts with: the number they extend [acc] to, how
    many there are, and the rest of [s]. *)
Fixpoint take_digits (s : string) (acc : Z) (count : nat) : Z * nat * string :=
  match s with
  | String c r =>
      if Fmt.is_digit c then take_digits r (10 * acc + digit_value c) (S count)
      else (acc, count, s)
  | EmptyString => (acc, count, s)
  end.

Definition take_sign (s : string) : bool * string :=
  match s with
  | String "-" r => (true, r)
  | String "+" r => (false, r)
  | _ => (false, s)
  end.

Definition lower (c : ascii) : ascii :=
  let n := N_of_ascii c in
  if ((65 <=? n) && (n <=? 90))%N then ascii_of_N (n + 32) else c.

Fixpoint lowercase (s : string) : string :=
  match s with
  | EmptyString => EmptyString
  | String c r => String (lower c) (lowercase r)
  end.

(** The binary64 nearest to [(-1)^neg * m * 10^k]. *)
Definition to_float (neg : bool) (m : Z) (k : Z) : spec_float :=
  match m with
  | Zpos p =>
      if 0 <=? k then
        binary_normalize Float64.prec Float64.emax (cond_Zopp neg (m * 10 ^ k)) 0 false
      else
        match 10 ^ (- k) with
        | Zpos d => Float64.div (S754_finite neg p 0) (S754_finite false d 0)
        | _ => S754_nan
        end
  | _ => S754_zero neg
  end.

Definition exponent (s : string) : option Z :=
  match s with
  | EmptyString => Some 0
  | String c r =>
      if (Ascii.eqb c "e" || Ascii.eqb c "E")%bool then
        let '(neg, r1) := take_sign r in
        let '(v, n, r2) := take_digits r1 0 0 in
        match n, r2 with
        | S _, EmptyString => Some (if neg then - v else v)
        | _, _ => None
        end
      else None
  end.

Definition float_of_str (s : string) : option spec_float :=
  let '(neg, s1) := take_sign s in
  let name := lowercase s1 in
  if (String.eqb name "inf" || String.eqb name "infinity")%bool then Some (S754_infinity neg)
  else if String.eqb name "nan" then Some S754_nan
  else
    let '(ip, n1, s2) := take_digits s1 0 0 in
    let '(m, n2, s3) :=
      match s2 with
      | String "." r => take_digits r ip 0
      | _ => (ip, O, s2)
      end in
    match (n1 + n2)%nat with
    | O => None
    | S _ =>
        match exponent s3 with
        | Some ex => Some (to_float neg m (ex - Z.of_nat n2))
        | None => None
        end
    end.

End Decimal.

Definition decimal_builtins : Py.Builtins := {| Py.float_of_str := Decimal.float_of_str |}.

Definition prices_channel : Config := {| CHANNEL_ID := "@prices" |}.


Module Scenario.

Definition usd (v : pyval) : pyval := VDict [("usd", v)].

Definition market_body : pyval :=
  VDict [("bitcoin", usd (VInt 65000)); ("ethereum", usd (VInt 3200));
         ("solana", usd (VInt 150)); ("tether", usd (VInt 1))].

Definition book_body : pyval :=
  VDict [("status", VStr "ok");
         ("bids", VList [VList [VStr "58400"; VStr "120.5"]; VList [VStr "58390"; VStr "3"]]);
         ("asks", VList [VList [VStr "58600"; VStr "77.25"]; VList [VStr "58610"; VStr "9"]])].

Definition ok (body : pyval) : response :=
  {| status_code := 200; text := "{...}"; json := Return body |}.

Definition unavailable : response :=
  {| status_code := 503; text := "Service Unavailable";
     json := Raise (Exn (OtherError "JSONDecodeError") "Expecting value: line 1 column 1 (char 0)") |}.

Definition network_down : exn := Exn (OtherError "ConnectionError") "Max retries exceeded".

Definition forbidden : exn :=
  Exn (OtherError "Forbidden") "Forbidden: bot is not a member of the channel chat".

(** Every call succeeds; the market and the order book answer as in the
    first scenario of the specification. *)
Definition calm_get (url : string) : outcome response :=
  if String.eqb url MARKET_URL then Return (ok market_body)
  else if String.eqb url ORDERBOOK_URL then Return (ok book_body)
  else Raise network_down.

Definition noon : datetime :=
  {| year := 2024; month := 5; day := 17; hour := 12; minute := 30; second := 45 |}.

Definition calm : world :=
  {| requests_get := calm_get;
     datetime_now := fun _ => noon;
     bot_get_chat := fun _ => Return "Chat(id=-1001, type=channel)";
     bot_send_message := fun _ _ => Return (VInt 42);
     bot_edit_message_text := fun _ _ _ => Return tt;
     job_queue_run_repeating := fun _ => Return tt;
     message_reply_text := fun _ => Return tt |}.

Definition with_requests (w : world) (get : string -> outcome response) : world :=
  {| requests_get := get;
     datetime_now := datetime_now w;
     bot_get_chat := bot_get_chat w;
     bot_send_message := bot_send_message w;
     bot_edit_message_text := bot_edit_message_text w;
     job_queue_run_repeating := job_queue_run_repeating w;
     message_reply_text := message_reply_text w |}.

Definition with_send (w : world) (send : string -> string -> outcome pyval) : world :=
  {| requests_get := requests_get w;
     datetime_now := datetime_now w;
     bot_get_chat := bot_get_chat w;
     bot_send_message := send;
     bot_edit_message_text := bot_edit_message_text w;
     job_queue_run_repeating := job_queue_run_repeating w;
     message_reply_text := message_reply_text w |}.

Definition with_get_chat (w : world) (get_chat : string -> outcome string) : world :=
  {| requests_get := requests_get w;
     datetime_now := datetime_now w;
     bot_get_chat := get_chat;
     bot_send_message := bot_send_message w;
     bot_edit_message_text := bot_edit_message_text w;
     job_queue_run_repeating := job_queue_run_repeating w;
     message_reply_text := message_reply_text w |}.

(** The market answers 503 (scenario 3). *)
Definition market_down : world :=
  with_requests calm
    (fun url => if String.eqb url MARKET_URL then Return unavailable else calm_get url).

(** The order-book request raises (scenario 2). *)
Definition book_down : world :=
  with_requests calm
    (fun url => if String.eqb url ORDERBOOK_URL then Raise network_down else calm_get url).

(** The market quotes bitcoin at 1e999, which the JSON decoder reads as the
    float infinity. *)
Definition overflowing_body : pyval :=
  VDict [("bitcoin", usd (VFloat (S754_infinity false))); ("ethereum", usd (VInt 3200));
         ("solana", usd (VInt 150)); ("tether", usd (VInt 1))].

Definition overflowing : world :=
  with_requests calm
    (fun url => if String.eqb url MARKET_URL then Return (ok overflowing_body)
                else calm_get url).

(** The state once a message with id 42 is tracked and its job is armed. *)
Definition tracking : state :=
  {| message_id := VInt 42;
     jobs := [{| interval := 300; first := 0 |}];
     chat_data_job := Some {| interval := 300; first := 0 |} |}.

End Scenario.

(** Further worlds, each the calm one with a single thing gone wrong. *)
Module Cases.

(** The order book answers 200 and lists no bids. *)
Definition empty_book_body : pyval :=
  VDict [("status", VStr "ok"); ("bids", VList []);
         ("asks", VList [VList [VStr "58600"; VStr "77.25"]])].

Definition empty_book : world :=
  Scenario.with_requests Scenario.calm
    (fun url => if String.eqb url ORDERBOOK_URL then Return (Scenario.ok empty_book_body)
                else Scenario.calm_get url).

(** The market quotes tether at 2 dollars, all else as in the calm world. *)
Definition tether_moved_body : pyval :=
  VDict [("bitcoin", Scenario.usd (VInt 65000)); ("ethereum", Scenario.usd (VInt 3200));
         ("solana", Scenario.usd (VInt 150)); ("tether", Scenario.usd (VInt 2))].

Definition tether_moved : world :=
  Scenario.with_requests Scenario.calm
    (fun url => if String.eqb url MARKET_URL then Return (Scenario.ok tether_moved_body)
                else Scenario.calm_get url).

Definition message_gone : exn :=
  Exn (OtherError "BadRequest") "Message to edit not found".

(** The tracked message was deleted: every edit call raises. *)
Definition frozen : world :=
  {| requests_get := requests_get Scenario.calm;
     datetime_now := datetime_now Scenario.calm;
     bot_get_chat := bot_get_chat Scenario.calm;
     bot_send_message := bot_send_message Scenario.calm;
     bot_edit_message_text := fun _ _ _ => Raise message_gone;
     job_queue_run_repeating := job_queue_run_repeating Scenario.calm;
     message_reply_text := message_reply_text Scenario.calm |}.

Definition scheduler_stopped : exn :=
  Exn (OtherError "RuntimeError") "cannot schedule new futures after shutdown".

(** The job queue is shutting down: the call of [run_repeating] raises. *)
Definition timer_refused : world :=
  {| requests_get := requests_get Scenario.calm;
     datetime_now := datetime_now Scenario.calm;
     bot_get_chat := bot_get_chat Scenario.calm;
     bot_send_message := bot_send_message Scenario.calm;
     bot_edit_message_text := bot_edit_message_text Scenario.calm;
     job_queue_run_repeating := fun _ => Raise scheduler_stopped;
     message_reply_text := message_reply_text Scenario.calm |}.

(** A second start command, whose placeholder gets the identifier 43. *)
Definition again : world := Scenario.with_send Scenario.calm (fun _ _ => Return (VInt 43)).

End Cases.

(** ** Laws of the handler monad *)

Section MonadLaws.

Context {A B : Type}.

Lemma frames_ret (a : A) : frames (ret a).
Proof. intro s. reflexivity. Qed.

Lemma frames_lift (o : outcome A) : frames (lift o).
Proof. intro s. reflexivity. Qed.

Lemma frames_call (ev : event) (o : outcome A) : frames (call ev o).
Proof. intro s. reflexivity. Qed.

Lemma frames_bind (m : M A) (k : A -> M B) :
  frames m -> (forall a, frames (k a)) -> frames (bind m k).
Proof.
  intros Hm Hk s. unfold bind, state_of.
  specialize (Hm s). unfold state_of in Hm.
  destruct (m s) as [[[a | e] s1] t1]; simpl in *; subst s1.
  - specialize (Hk a s). unfold state_of in Hk.
    destruct (k a s) as [[r s2] t2]. simpl in *. assumption.
  - reflexivity.
Qed.

Lemma frames_try_except (m : M A) (h : exn -> M A) :
  frames m -> (forall e, frames (h e)) -> frames (try_except m h).
Proof.
  intros Hm Hh s. unfold try_except, state_of.
  specialize (Hm s). unfold state_of in Hm.
  destruct (m s) as [[[a | e] s1] t1]; simpl in *; subst s1.
  - reflexivity.
  - specialize (Hh e s). unfold state_of in Hh.
    destruct (h e s) as [[r s2] t2]. simpl in *. assumption.
Qed.

Lemma returns_ret (a : A) : returns (ret a).
Proof. intro s. exists a. reflexivity. Qed.

Lemma returns_bind (m : M A) (k : A -> M B) :
  returns m -> (forall a, returns (k a)) -> returns (bind m k).
Proof.
  intros Hm Hk s. unfold bind, outcome_of.
  destruct (Hm s) as [a Ha]. unfold outcome_of in Ha.
  destruct (m s) as [[r s1] t1]. simpl in Ha. subst r.
  destruct (Hk a s1) as [b Hb]. unfold outcome_of in Hb.
  destruct (k a s1) as [[r s2] t2]. simpl in *. exists b. assumption.
Qed.

Lemma returns_try_except (m : M A) (h : exn -> M A) :
  (forall e, returns (h e)) -> returns (try_except m h).
Proof.
  intros Hh s. unfold try_except, outcome_of.
  destruct (m s) as [[[a | e] s1] t1]; simpl.
  - exists a. reflexivity.
  - destruct (Hh e s1) as [b Hb]. unfold outcome_of in Hb.
    destruct (h e s1) as [[r s2] t2]. simpl in *. exists b. assumption.
Qed.

Variable P : event -> Prop.

Lemma emits_ret (a : A) : emits_only P (ret a).
Proof. intro s. constructor. Qed.

Lemma emits_lift (o : outcome A) : emits_only P (lift o).
Proof. intro s. constructor. Qed.

Lemma emits_call (ev : event) (o : outcome A) : P ev -> emits_only P (call ev o).
Proof. intros H s. repeat constructor. assumption. Qed.

Lemma emits_bind (m : M A) (k : A -> M B) :
  emits_only P m -> (forall a, emits_only P (k a)) -> emits_only P (bind m k).
Proof.
  intros Hm Hk s. unfold bind, trace_of.
  specialize (Hm s). unfold trace_of in Hm.
  destruct (m s) as [[[a | e] s1] t1]; simpl in *.
  - specialize (Hk a s1). unfold trace_of in Hk.
    destruct (k a s1) as [[r s2] t2]. simpl in *.
    apply Forall_app. split; assumption.
  - assumption.
Qed.

Lemma emits_try_except (m : M A) (h : exn -> M A) :
  emits_only P m -> (forall e, emits_only P (h e)) -> emits_only P (try_except m h).
Proof.
  intros Hm Hh s. unfold try_except, trace_of.
  specialize (Hm s). unfold trace_of in Hm.
  destruct (m s) as [[[a | e] s1] t1]; simpl in *.
  - assumption.
  - specialize (Hh e s1). unfold trace_of in Hh.
    destruct (h e s1) as [[r s2] t2]. simpl in *.
    apply Forall_app. split; assumption.
Qed.

End MonadLaws.

Lemma frames_log (lvl : level) (msg : list frag) : frames (log lvl msg).
Proof. intro s. reflexivity. Qed.

Lemma frames_read_message_id : frames read_message_id.
Proof. intro s. reflexivity. Qed.

Lemma returns_log (lvl : level) (msg : list frag) : returns (log lvl msg).
Proof. intro s. exists tt. reflexivity. Qed.

Lemma emits_log (P : event -> Prop) (lvl : level) (msg : list frag) :
  P (EvLog lvl msg) -> emits_only P (log lvl msg).
Proof. intros H s. repeat constructor. assumption. Qed.

Lemma emits_read_message_id (P : event -> Prop) : emits_only P read_message_id.
Proof. intro s. constructor. Qed.

Lemma emits_write_message_id (P : event -> Prop) (v : pyval) : emits_only P (write_message_id v).
Proof. intro s. constructor. Qed.

Lemma emits_add_job (P : event -> Prop) (j : job) : emits_only P (add_job j).
Proof. intro s. constructor. Qed.

Lemma emits_write_chat_data_job (P : event -> Prop) (j : job) :
  emits_only P (write_chat_data_job j).
Proof. intro s. constructor. Qed.

Create HintDb frames.
Create HintDb emits.

#[export] Hint Resolve frames_ret frames_lift frames_call frames_log frames_read_message_id : frames.
#[export] Hint Resolve emits_ret emits_lift emits_log emits_read_message_id
  emits_write_message_id emits_add_job emits_write_chat_data_job : emits.

(** Walks through a handler body, one monadic construct at a time. *)
Ltac frames_step :=
  match goal with
  | |- frames (bind _ _) => apply frames_bind; [ | intro ]
  | |- frames (try_except _ _) => apply frames_try_except; [ | intro ]
  | |- frames (if ?c then _ else _) => destruct c
  | |- frames _ => solve [ auto with frames ]
  end.

Ltac emits_step :=
  match goal with
  | |- emits_only _ (bind _ _) => apply emits_bind; [ | intro ]
  | |- emits_only _ (try_except _ _) => apply emits_try_except; [ | intro ]
  | |- emits_only _ (if ?c then _ else _) => destruct c
  | |- emits_only _ (call _ _) => apply emits_call
  | |- emits_only _ _ => solve [ auto with emits ]
  end.

(** ** Facts about the rendered text *)

Section TextFacts.


Lemma append_nil_r (a : string) : a ++ EmptyString = a.
Proof. induction a as [| x a IH]; simpl; [ reflexivity | rewrite IH; reflexivity ]. Qed.

Lemma length_append (a b : string) :
  String.length (a ++ b) = (String.length a + String.length b)%nat.
Proof. induction a as [| x a IH]; simpl; [ reflexivity | rewrite IH; reflexivity ]. Qed.

Lemma all_digits_append (a b : string) :
  Fmt.all_digits (a ++ b) = Fmt.all_digits a && Fmt.all_digits b.
Proof.
  induction a as [| x a IH]; simpl; [ reflexivity | ].
  rewrite IH, andb_assoc. reflexivity.
Qed.

Lemma is_digit_digit_char (d : Z) : 0 <= d < 10 -> Fmt.is_digit (Fmt.digit_char d) = true.
Proof.
  intro Hd.
  assert (Hcases : d = 0 \/ d = 1 \/ d = 2 \/ d = 3 \/ d = 4 \/ d = 5 \/ d = 6
                   \/ d = 7 \/ d = 8 \/ d = 9) by lia.
  repeat (destruct Hcases as [-> | Hcases]; [ reflexivity | ]).
  subst d. reflexivity.
Qed.

Lemma frac_digits_shape (p : nat) (n : Z) : digits_of_length p (Fmt.frac_digits p n).
Proof.
  revert n. induction p as [| p IH]; intro n; simpl.
  - split; reflexivity.
  - destruct (IH (n / 10)) as [Hlen Hdig]. split.
    + rewrite length_append, Hlen. simpl. lia.
    + rewrite all_digits_append, Hdig. simpl.
      rewrite is_digit_digit_char; [ reflexivity | ].
      apply Z.mod_pos_bound. lia.
Qed.

(** The rounding of the formatter is to a nearest integer. *)
Lemma round_half_even_nearest (num den : Z) :
  0 < den -> Z.abs (2 * num - 2 * den * Fmt.round_half_even num den) <= den.
Proof.
  intro Hden. unfold Fmt.round_half_even.
  pose proof (Z.div_mod num den ltac:(lia)) as Hdiv.
  pose proof (Z.mod_pos_bound num den Hden) as Hmod.
  destruct (2 * (num mod den) ?= den) eqn:Hcmp.
  - apply Z.compare_eq in Hcmp. destruct (Z.even (num / den)); lia.
  - rewrite Z.compare_lt_iff in Hcmp. lia.
  - rewrite Z.compare_gt_iff in Hcmp. lia.
Qed.

Lemma uint_digits (d : Decimal.uint) : Fmt.all_digits (NilEmpty.string_of_uint d) = true.
Proof. induction d; simpl; try reflexivity; assumption. Qed.

Lemma int_digits_shape (n : Z) :
  Fmt.all_digits (Fmt.int_digits n) = true /\ Fmt.int_digits n <> EmptyString.
Proof.
  unfold Fmt.int_digits.
  destruct (N.to_uint (Z.to_N n)) as [| d | d | d | d | d | d | d | d | d | d]; simpl;
    (split; [ try reflexivity; apply uint_digits | discriminate ]).
Qed.

Lemma mod3_of_groups (a k : nat) :
  (1 <= a <= 3)%nat -> ((a + 3 * k) mod 3 =? 0)%nat = (a =? 3)%nat.
Proof.
  intro Ha. rewrite (Nat.mul_comm 3 k), Nat.Div0.mod_add.
  destruct a as [| [| [| [| a]]]]; try reflexivity; lia.
Qed.

(** What [group3] makes of a row of digits, with the length bookkeeping the
    induction needs. *)
Lemma group3_groups (d : string) :
  d <> EmptyString -> Fmt.all_digits d = true ->
  exists (g0 : string) (gs : list string),
    Fmt.group3 d = g0 ++ comma_groups gs
    /\ (1 <= String.length g0 <= 3)%nat /\ Fmt.all_digits g0 = true
    /\ Forall (digits_of_length 3) gs
    /\ String.length d = (String.length g0 + 3 * List.length gs)%nat.
Proof.
  induction d as [| c r IH]; intros Hne Hdig; [ congruence | ].
  simpl in Hdig. apply andb_prop in Hdig. destruct Hdig as [Hc Hr].
  assert (Hcase : r = EmptyString \/ negb (String.length r =? 0)%nat = true)
    by (destruct r; [ left | right ]; reflexivity).
  destruct Hcase as [-> | Hlong].
  - exists (String c EmptyString), []. simpl. rewrite Hc.
    repeat split; try lia. constructor.
  - assert (Hrne : r <> EmptyString) by (intros ->; discriminate Hlong).
    destruct (IH Hrne Hr) as (g0 & gs & Hg & Hlen0 & Hdig0 & Hgs & Hlen).
    cbn [Fmt.group3]. rewrite Hg, Hlong.
    rewrite Hlen, (mod3_of_groups _ _ Hlen0). cbn [andb].
    destruct (String.length g0 =? 3)%nat eqn:H3.
    + apply Nat.eqb_eq in H3.
      exists (String c EmptyString), (g0 :: gs). simpl. rewrite Hc.
      repeat split; try lia.
      constructor; [ split; assumption | assumption ].
    + apply Nat.eqb_neq in H3.
      exists (String c g0), gs. simpl. rewrite Hc, Hdig0.
      repeat split; try lia; assumption.
Qed.

Lemma group3_thousands (d : string) :
  d <> EmptyString -> Fmt.all_digits d = true -> thousands (Fmt.group3 d).
Proof.
  intros Hne Hdig.
  destruct (group3_groups d Hne Hdig) as (g0 & gs & Hg & Hlen0 & Hdig0 & Hgs & _).
  exists g0, gs. repeat split; assumption || lia.
Qed.

Lemma fixed_shape (neg : bool) (p : nat) (n : Z) :
  fixed_point p (Fmt.sign neg ++ Fmt.fixed p n).
Proof.
  exists neg, (Fmt.group3 (Fmt.int_digits (n / 10 ^ Z.of_nat p))),
    (Fmt.frac_digits p (n mod 10 ^ Z.of_nat p)).
  destruct (int_digits_shape (n / 10 ^ Z.of_nat p)) as [Hdig Hne].
  split; [ | split ].
  - unfold Fmt.fixed. destruct p; reflexivity.
  - apply group3_thousands; assumption.
  - apply frac_digits_shape.
Qed.

Lemma format_float_shape (p : nat) (x : spec_float) :
  Float64.is_finite x = true -> fixed_point p (Fmt.format_float p x).
Proof.
  destruct x as [neg | neg | | neg m e]; simpl; intro H; try discriminate H;
    apply fixed_shape.
Qed.

(** A float without a decimal expansion is rendered by name. *)
Lemma format_float_names (p : nat) (x : spec_float) :
  Float64.is_finite x = false ->
  Fmt.format_float p x = "inf" \/ Fmt.format_float p x = "-inf"
  \/ Fmt.format_float p x = "nan".
Proof.
  destruct x as [neg | [|] | | neg m e]; simpl; intro H; try discriminate H; auto.
Qed.

Lemma int_to_float_finite (z : Z) (x : spec_float) :
  Py.int_to_float z = Return x -> Float64.is_finite x = true.
Proof.
  unfold Py.int_to_float.
  destruct (Float64.is_finite (Float64.of_Z z)) eqn:H; intro Heq; inversion Heq; subst.
  exact H.
Qed.

Lemma format_f_shape (p : nat) (v : pyval) (x : string) :
  finite_number v -> Fmt.format_f p v = Return x -> fixed_point p x.
Proof.
  destruct v as [| b | z | f | t | l | d]; simpl; intros Hfin Hfmt; try contradiction.
  - destruct (Py.int_to_float (Py.bool_to_Z b)) as [y | e] eqn:Hy; simpl in Hfmt;
      inversion Hfmt; subst.
    apply format_float_shape. exact (int_to_float_finite _ _ Hy).
  - destruct (Py.int_to_float z) as [y | e] eqn:Hy; simpl in Hfmt;
      inversion Hfmt; subst.
    apply format_float_shape. exact (int_to_float_finite _ _ Hy).
  - inversion Hfmt; subst. apply format_float_shape. exact Hfin.
Qed.


























End TextFacts.

(** ** Facts about the handlers *)

Section BotFacts.

Context {cfg : Config} {bi : Py.Builtins}.

Lemma get_usdt_irr_rate_frames (w : world) : frames (get_usdt_irr_rate w).
Proof. unfold get_usdt_irr_rate. repeat frames_step. Qed.

Lemma update_price_frames (w : world) : frames (update_price w).
Proof.
  unfold update_price. pose proof (get_usdt_irr_rate_frames w).
  repeat frames_step.
Qed.

Lemma update_price_returns (w : world) : returns (update_price w).
Proof.
  unfold update_price.
  apply returns_bind; [ intro s; eexists; reflexivity | intro mid ].
  destruct (negb (Py.truthy mid)).
  - apply returns_log.
  - apply returns_try_except. intro e.
    apply returns_bind; [ apply returns_log | intros _; apply returns_log ].
Qed.

(** With a falsy [message_id] the tick only writes its debug line. *)
Lemma update_price_falsy (w : world) (s : state) :
  Py.truthy (message_id s) = false ->
  update_price w s = (Return tt, s, [EvLog DEBUG [Lit "No message ID available for update"]]).
Proof.
  intro H. unfold update_price, bind, read_message_id.
  rewrite H. reflexivity.
Qed.

End BotFacts.

(** ** The properties of the specification *)

Section Properties.

Context {cfg : Config} {bi : Py.Builtins}.

Ltac run_handler :=
  unfold update_price, get_usdt_irr_rate, bind, try_except, call, log, emit, lift, ret,
    read_message_id, outcome_of, state_of, trace_of.

(** Checks the events of an explicit trace against a disjunction of cases. *)
Ltac listed_events :=
  repeat (apply Forall_cons;
          [ first [ left; reflexivity | right; left; reflexivity
                  | right; right; reflexivity | right; reflexivity ] | ]);
  apply Forall_nil.

Ltac run_start :=
  unfold start, bind, try_except, call, log, emit, lift, ret, write_message_id,
    read_message_id, add_job, write_chat_data_job, outcome_of, state_of, trace_of.

(** The rate fetcher always comes back with a value, leaves the state alone
    and shows only its own request and log lines. *)
Lemma get_usdt_irr_rate_total (w : world) (s : state) :
  exists rate tr,
    get_usdt_irr_rate w s = (Return rate, s, tr) /\ Forall book_event tr.
Proof.
  unfold get_usdt_irr_rate, bind, try_except, call, log, emit, lift, ret, book_event.
  destruct (requests_get w ORDERBOOK_URL) as [r | e]; simpl.
  2: { eexists; eexists; split; [ reflexivity | listed_events ]. }
  destruct (status_code r =? 200); simpl.
  2: { eexists; eexists; split; [ reflexivity | listed_events ]. }
  destruct (json r) as [data | e]; simpl.
  2: { eexists; eexists; split; [ reflexivity | listed_events ]. }
  destruct (best_price data "bids") as [b | e]; simpl.
  2: { eexists; eexists; split; [ reflexivity | listed_events ]. }
  destruct (best_price data "asks") as [a | e]; simpl.
  2: { eexists; eexists; split; [ reflexivity | listed_events ]. }
  eexists; eexists; split; [ reflexivity | listed_events ].
Qed.

(** The tick once the quotes are in: what it does is decided by the rate
    fetcher, the f-string and the edit call. *)
Lemma update_price_with_quotes (w : world) (s : state) (btc eth sol usdt rate : pyval)
    (tr : list event) :
  Py.truthy (message_id s) = true ->
  market_quotes w btc eth sol usdt ->
  get_usdt_irr_rate w s = (Return rate, s, tr) ->
  update_price w s =
    (Return tt, s,
     ([EvLog DEBUG [Lit "Fetching crypto prices from CoinGecko API"];
       EvHttpGet MARKET_URL;
       EvLog DEBUG [Lit "API Response status: "; Interp (VInt 200)];
       EvLog DEBUG [Lit "Successfully parsed API response"]] ++ tr ++
      [EvDatetimeNow "Asia/Tehran" "%Y-%m-%d %H:%M:%S"] ++
      match message_text btc eth sol rate with
      | Return body =>
          [EvLog DEBUG [Lit "Updating message with new prices"];
           EvEditMessageText CHANNEL_ID (message_id s) body] ++
          match bot_edit_message_text w CHANNEL_ID (message_id s) body with
          | Return _ => [EvLog DEBUG [Lit "Message updated successfully"]]
          | Raise e => [EvLog ERROR [Lit "Error updating price: "; Lit (exn_str e)];
                        EvLog ERROR [Lit "Error details: "; Lit (exn_str e)]]
          end
      | Raise e => [EvLog ERROR [Lit "Error updating price: "; Lit (exn_str e)];
                    EvLog ERROR [Lit "Error details: "; Lit (exn_str e)]]
      end)%list).
Proof.
  intros Hid (r & data & Hget & Hs & Hj & Hb & He & Hso & Ht) Hrate.
  unfold update_price, bind, try_except, call, log, emit, lift, ret, read_message_id.
  rewrite Hid, Hget. simpl.
  rewrite Hs, Hj. simpl. rewrite Hb, He, Hso, Ht, Hrate. simpl.
  destruct (message_text btc eth sol rate) as [body | e]; simpl.
  - destruct (bot_edit_message_text w CHANNEL_ID (message_id s) body) as [[] | e]; simpl;
      rewrite <- ?app_assoc; reflexivity.
  - rewrite <- ?app_assoc. reflexivity.
Qed.

Lemma book_events_hold_no_edit (tr : list event) :
  Forall book_event tr -> edit_calls tr = [].
Proof.
  induction 1 as [| ev tr Hev _ IH]; [ reflexivity | ].
  unfold edit_calls in *. simpl.
  destruct Hev as [Hlog | ->]; [ destruct ev; try discriminate Hlog | ]; simpl; exact IH.
Qed.

Lemma market_failure_no_edit (w : world) (s : state) :
  Py.truthy (message_id s) = true ->
  market_fetch_fails w ->
  edit_calls (trace_of (update_price w s)) = [].
Proof.
  intros Hid Hfail. run_handler. rewrite Hid. simpl.
  destruct Hfail as [e H | r H Hs | r e H Hs Hj | r data asset e H Hs Hj Hin Hq]; rewrite H; simpl.
  - reflexivity.
  - apply Z.eqb_neq in Hs. rewrite Hs. reflexivity.
  - apply Z.eqb_eq in Hs. rewrite Hs, Hj. reflexivity.
  - apply Z.eqb_eq in Hs. rewrite Hs, Hj. simpl.
    destruct (quote data "bitcoin") as [b | eb] eqn:Hb; [ | reflexivity ].
    destruct (quote data "ethereum") as [et | ee] eqn:He; [ | reflexivity ].
    destruct (quote data "solana") as [so | es] eqn:Hso; [ | reflexivity ].
    destruct (quote data "tether") as [t | etr] eqn:Ht; [ | reflexivity ].
    exfalso. simpl in Hin.
    destruct Hin as [<- | [<- | [<- | [<- | []]]]]; congruence.
Qed.

(** The market fetch either fails or delivers the four quotes. *)
Lemma market_decides (w : world) :
  market_fetch_fails w \/ exists btc eth sol usdt, market_quotes w btc eth sol usdt.
Proof.
  destruct (requests_get w MARKET_URL) as [r | e] eqn:Hget.
  2: { left. exact (market_request_raises w e Hget). }
  destruct (Z.eq_dec (status_code r) 200) as [Hs | Hs].
  2: { left. exact (market_bad_status w r Hget Hs). }
  destruct (json r) as [data | e] eqn:Hj.
  2: { left. exact (market_bad_body w r e Hget Hs Hj). }
  assert (Hmissing : forall asset e, In asset ASSETS -> quote data asset = Raise e ->
                                     market_fetch_fails w).
  { intros asset e Hin Hq. exact (market_quote_missing w r data asset e Hget Hs Hj Hin Hq). }
  destruct (quote data "bitcoin") as [btc | e] eqn:Hb.
  2: { left. apply (Hmissing "bitcoin" e); [ simpl; auto | exact Hb ]. }
  destruct (quote data "ethereum") as [eth | e] eqn:He.
  2: { left. apply (Hmissing "ethereum" e); [ simpl; auto | exact He ]. }
  destruct (quote data "solana") as [sol | e] eqn:Hso.
  2: { left. apply (Hmissing "solana" e); [ simpl; auto | exact Hso ]. }
  destruct (quote data "tether") as [usdt | e] eqn:Ht.
  2: { left. apply (Hmissing "tether" e); [ simpl; auto | exact Ht ]. }
  right. exists btc, eth, sol, usdt, r, data. repeat split; assumption.
Qed.

(** A tick whose edit went through had the quotes, a rate and a text that
    formatted. *)
Lemma successful_tick_inversion (w : world) (s : state) (body : string) :
  successful_tick w s body ->
  exists (btc eth sol usdt rate : pyval) (tr : list event),
    Py.truthy (message_id s) = true
    /\ market_quotes w btc eth sol usdt
    /\ get_usdt_irr_rate w s = (Return rate, s, tr)
    /\ message_text btc eth sol rate = Return body.
Proof.
  intros [Hedit Hsent].
  destruct (Py.truthy (message_id s)) eqn:Hid.
  2: { rewrite (update_price_falsy w s Hid) in Hedit. discriminate Hedit. }
  destruct (market_decides w) as [Hfail | (btc & eth & sol & usdt & Hquotes)].
  { rewrite (market_failure_no_edit w s Hid Hfail) in Hedit. discriminate Hedit. }
  destruct (get_usdt_irr_rate_total w s) as (rate & tr & Hrate & Htr).
  rewrite (update_price_with_quotes w s btc eth sol usdt rate tr Hid Hquotes Hrate) in Hedit.
  unfold trace_of, edit_calls in Hedit. simpl in Hedit.
  rewrite filter_app in Hedit. fold (edit_calls tr) in Hedit.
  rewrite (book_events_hold_no_edit tr Htr) in Hedit. simpl in Hedit.
  destruct (message_text btc eth sol rate) as [body' | e] eqn:Htext.
  - simpl in Hedit.
    assert (body' = body) as ->.
    { destruct (bot_edit_message_text w CHANNEL_ID (message_id s) body');
        simpl in Hedit; inversion Hedit; reflexivity. }
    exists btc, eth, sol, usdt, rate, tr. repeat split; assumption.
  - discriminate Hedit.
Qed.




Lemma message_text_inversion (btc eth sol rate : pyval) (body : string) :
  message_text btc eth sol rate = Return body ->
  exists b e so r : string,
    Fmt.format_f 2 btc = Return b /\ Fmt.format_f 2 eth = Return e
    /\ Fmt.format_f 2 sol = Return so /\ Fmt.format_f 0 rate = Return r
    /\ body = price_block b e so r.
Proof.
  unfold message_text. intro H.
  destruct (Fmt.format_f 2 btc) as [b | x]; simpl in H; [ | discriminate H ].
  destruct (Fmt.format_f 2 eth) as [e | x]; simpl in H; [ | discriminate H ].
  destruct (Fmt.format_f 2 sol) as [so | x]; simpl in H; [ | discriminate H ].
  destruct (Fmt.format_f 0 rate) as [r | x]; simpl in H; [ | discriminate H ].
  inversion H. exists b, e, so, r. repeat split.
Qed.

Lemma book_failure_rate (w : world) (s : state) :
  book_fetch_fails w ->
  exists tr, get_usdt_irr_rate w s = (Return (VInt 50000), s, tr) /\ Forall book_event tr.
Proof.
  intro Hfail.
  unfold get_usdt_irr_rate, bind, try_except, call, log, emit, lift, ret, book_event.
  destruct Hfail as [e H | r H Hs | r e H Hs Hread]; rewrite H; simpl.
  - eexists; split; [ reflexivity | listed_events ].
  - apply Z.eqb_neq in Hs. rewrite Hs. simpl.
    eexists; split; [ reflexivity | listed_events ].
  - apply Z.eqb_eq in Hs. rewrite Hs. simpl.
    unfold read_book in Hread.
    destruct (json r) as [data | e1]; simpl in *.
    2: { eexists; split; [ reflexivity | listed_events ]. }
    destruct (best_price data "bids") as [b | e2]; simpl in *.
    2: { eexists; split; [ reflexivity | listed_events ]. }
    destruct (best_price data "asks") as [a | e3]; simpl in *.
    2: { eexists; split; [ reflexivity | listed_events ]. }
    discriminate Hread.
Qed.

Lemma run_cons (s : state) (x : stimulus) (xs : list stimulus) :
  run s (x :: xs) =
    (fst (run (fst (step s x)) xs), (snd (step s x) ++ snd (run (fst (step s x)) xs))%list).
Proof.
  cbn [run]. destruct (step s x) as [s1 t1]. simpl.
  destruct (run s1 xs) as [s2 t2]. reflexivity.
Qed.

(** A bootstrap whose calls succeed: the identifier is stored and the job
    armed, whatever the first update then does. *)
Lemma start_succeeds (w : world) (s : state) (chat : string) (mid : pyval) :
  bot_get_chat w CHANNEL_ID = Return chat ->
  bot_send_message w CHANNEL_ID "Starting price updates..." = Return mid ->
  job_queue_run_repeating w five_minutes = Return tt ->
  state_of (start w s) =
    {| message_id := mid; jobs := (jobs s ++ [five_minutes])%list;
       chat_data_job := Some five_minutes |}
  /\ outcome_of (start w s) = Return tt
  /\ In (EvRunRepeating five_minutes) (trace_of (start w s)).
Proof.
  intros Hchat Hsend Hjob. unfold five_minutes in *. run_start.
  rewrite Hchat, Hsend, Hjob. simpl.
  match goal with |- context [update_price w ?s1] =>
    pose proof (update_price_frames w s1) as Hframe;
    destruct (update_price_returns w s1) as [[] Hret];
    unfold state_of in Hframe; unfold outcome_of in Hret;
    destruct (update_price w s1) as [[o s2] t]
  end.
  simpl in *. subst o s2. simpl.
  split; [ reflexivity | split; [ reflexivity | ] ].
  do 7 right. left. reflexivity.
Qed.

(** A bootstrap whose destination check or placeholder send raises. *)
Lemma start_fails (w : world) (s : state) (e : exn) :
  bootstrap_raises w e ->
  exists pre,
    Forall bootstrap_event pre
    /\ start w s =
         (message_reply_text w (error_message e), s,
          (pre ++ [EvReplyText (error_message e)])%list).
Proof.
  intros [Hchat | chat Hchat Hsend]; unfold bootstrap_event; run_start.
  - rewrite Hchat. simpl.
    exists [EvLog DEBUG [Lit "Received /start command"];
            EvLog DEBUG [Lit "Attempting to get chat info for "; Lit CHANNEL_ID];
            EvGetChat CHANNEL_ID;
            EvLog ERROR [Lit "Error starting bot: "; Lit (exn_str e)]].
    split; [ listed_events | reflexivity ].
  - rewrite Hchat, Hsend. simpl.
    exists [EvLog DEBUG [Lit "Received /start command"];
            EvLog DEBUG [Lit "Attempting to get chat info for "; Lit CHANNEL_ID];
            EvGetChat CHANNEL_ID;
            EvLog DEBUG [Lit "Chat info: "; Lit chat];
            EvLog DEBUG [Lit "Sending initial message to channel "; Lit CHANNEL_ID];
            EvSendMessage CHANNEL_ID "Starting price updates...";
            EvLog ERROR [Lit "Error starting bot: "; Lit (exn_str e)]].
    split; [ listed_events | reflexivity ].
Qed.

Lemma bootstrap_events_are_quiet (pre : list event) (body : string) :
  Forall bootstrap_event pre ->
  timers_armed (pre ++ [EvReplyText body]) = []
  /\ http_gets (pre ++ [EvReplyText body]) = []
  /\ edit_calls (pre ++ [EvReplyText body]) = [].
Proof.
  unfold timers_armed, http_gets, edit_calls.
  induction 1 as [| ev pre Hev _ IH]; simpl; [ repeat split | ].
  destruct Hev as [Hlog | [-> | ->]]; [ destruct ev; try discriminate Hlog | | ];
    simpl; exact IH.
Qed.

Ltac other_event :=
  unfold not_exchange_rates;
  let Hsame := fresh "Hsame" in
  intro Hsame; vm_compute in Hsame; discriminate Hsame.

Lemma get_usdt_irr_rate_skips_exchange_rates (w : world) :
  emits_only not_exchange_rates (get_usdt_irr_rate w).
Proof.
  unfold get_usdt_irr_rate.
  repeat (emits_step; try (apply emits_log); try other_event).
Qed.

Lemma update_price_skips_exchange_rates (w : world) :
  emits_only not_exchange_rates (update_price w).
Proof.
  unfold update_price. pose proof (get_usdt_irr_rate_skips_exchange_rates w) as Hrate.
  repeat (emits_step; try (apply emits_log); try other_event; try exact Hrate).
Qed.

Lemma start_skips_exchange_rates (w : world) :
  emits_only not_exchange_rates (start w).
Proof.
  unfold start. pose proof (update_price_skips_exchange_rates w) as Hupdate.
  repeat (emits_step; try (apply emits_log); try other_event; try exact Hupdate).
Qed.

Lemma run_skips_exchange_rates (xs : list stimulus) (s : state) :
  Forall not_exchange_rates (snd (run s xs)).
Proof.
  revert s. induction xs as [| x xs IH]; intro s.
  - constructor.
  - rewrite run_cons. cbn [snd]. apply Forall_app. split; [ | apply IH ].
    destruct x as [w | w]; simpl.
    + apply start_skips_exchange_rates.
    + destruct (jobs s); [ constructor | apply update_price_skips_exchange_rates ].
Qed.

Lemma main_skips_exchange_rates (xs : list stimulus) :
  Forall not_exchange_rates (snd (main xs)).
Proof.
  unfold main. pose proof (run_skips_exchange_rates xs initial_state) as Hrun.
  destruct (run initial_state xs) as [s t]. cbn [snd] in *.
  repeat (apply Forall_cons; [ other_event | ]). exact Hrun.
Qed.

(** Ticks that find a falsy [message_id] change nothing and call nothing. *)
Lemma falsy_ticks_are_idle (s : state) (ws : list world) :
  Py.truthy (message_id s) = false ->
  fst (run s (map JobFires ws)) = s
  /\ http_gets (snd (run s (map JobFires ws))) = []
  /\ edit_calls (snd (run s (map JobFires ws))) = [].
Proof.
  intro Hfalsy. induction ws as [| w ws IH]; cbn [map run].
  - repeat split.
  - assert (Hstep : step s (JobFires w) = (s, []) \/
                    step s (JobFires w) =
                      (s, [EvLog DEBUG [Lit "No message ID available for update"]])).
    { simpl. destruct (jobs s); [ left; reflexivity | right ].
      rewrite (update_price_falsy w s Hfalsy). reflexivity. }
    destruct IH as (IH1 & IH2 & IH3).
    destruct Hstep as [-> | ->];
      destruct (run s (map JobFires ws)) as [s2 t2]; simpl in *; subst s2;
      repeat split; assumption.
Qed.

(** C1. A tick that has a tracked message and whose market quotes fetch
    fails (status other than 200, or a body without the four quotes) makes no
    edit call, leaves the tracked message reference as it was and lets no
    exception out. *)
Theorem market_failure_aborts_tick (w : world) (s : state) :
  Py.truthy (message_id s) = true ->
  market_fetch_fails w ->
  edit_calls (trace_of (update_price w s)) = []
  /\ message_id (state_of (update_price w s)) = message_id s
  /\ outcome_of (update_price w s) = Return tt.
Proof.
  intros Hid Hfail.
  split; [ | split ].
  - exact (market_failure_no_edit w s Hid Hfail).
  - rewrite update_price_frames. reflexivity.
  - destruct (update_price_returns w s) as [[] H]. exact H.
Qed.

(** C2. When the order-book fetch fails (status other than 200, or an
    exception from the request or from reading the body), the rate fetcher
    returns exactly 50000, with nothing but its request and log lines to
    show for it; the tick goes on: with the market quotes in and a text that
    formats, it makes its edit call with the fallback rate and returns. *)
Theorem book_failure_falls_back_to_50000 (w : world) (s : state) :
  book_fetch_fails w ->
  outcome_of (get_usdt_irr_rate w s) = Return (VInt 50000)
  /\ state_of (get_usdt_irr_rate w s) = s
  /\ Forall book_event (trace_of (get_usdt_irr_rate w s))
  /\ forall (btc eth sol usdt : pyval) (body : string),
       Py.truthy (message_id s) = true ->
       market_quotes w btc eth sol usdt ->
       message_text btc eth sol (VInt 50000) = Return body ->
       edit_calls (trace_of (update_price w s)) =
         [EvEditMessageText CHANNEL_ID (message_id s) body]
       /\ outcome_of (update_price w s) = Return tt.
Proof.
  intro Hfail.
  destruct (book_failure_rate w s Hfail) as (tr & Hrate & Htr).
  rewrite Hrate. unfold outcome_of, state_of, trace_of. simpl.
  split; [ reflexivity | split; [ reflexivity | split; [ exact Htr | ] ] ].
  intros btc eth sol usdt body Hid Hquotes Htext.
  rewrite (update_price_with_quotes w s btc eth sol usdt (VInt 50000) tr Hid Hquotes Hrate).
  rewrite Htext. simpl. split; [ | reflexivity ].
  unfold edit_calls. rewrite filter_app. fold (edit_calls tr).
  rewrite (book_events_hold_no_edit tr Htr). simpl.
  destruct (bot_edit_message_text w CHANNEL_ID (message_id s) body); reflexivity.
Qed.

(** C3. On a 200 response whose body lists bids and asks, with best bid
    price B and best ask price A, the rate fetcher returns (B + A) / 2, the
    sum and the quotient being those of binary64 arithmetic. *)
Theorem book_rate_is_mean_of_best_bid_and_ask (w : world) (s : state) (r : response)
    (d : list (string * pyval)) (bid_price ask_price : pyval)
    (bid_rest ask_rest bids asks : list pyval) (B A : spec_float) :
  requests_get w ORDERBOOK_URL = Return r ->
  status_code r = 200 ->
  json r = Return (VDict d) ->
  Py.assoc "bids" d = Some (VList (VList (bid_price :: bid_rest) :: bids)) ->
  Py.assoc "asks" d = Some (VList (VList (ask_price :: ask_rest) :: asks)) ->
  Py.float bid_price = Return B ->
  Py.float ask_price = Return A ->
  outcome_of (get_usdt_irr_rate w s) =
    Return (VFloat (Float64.div (Float64.add B A) (Float64.of_Z 2))).
Proof.
  intros Hget Hs Hj Hbids Hasks HB HA.
  assert (Hbid : best_price (VDict d) "bids" = Return B).
  { unfold best_price. simpl. rewrite Hbids. simpl. exact HB. }
  assert (Hask : best_price (VDict d) "asks" = Return A).
  { unfold best_price. simpl. rewrite Hasks. simpl. exact HA. }
  unfold get_usdt_irr_rate, bind, try_except, call, log, emit, lift, ret, outcome_of.
  rewrite Hget. simpl. rewrite Hs, Hj. simpl. rewrite Hbid, Hask. reflexivity.
Qed.

(** C4. Called while no message identifier has been assigned, the Update
    Cycle is a no-op: it returns after its debug line, with no HTTP fetch and
    no edit call. *)
Theorem update_price_without_message_is_noop (w : world) (s : state) :
  message_id s = VNone ->
  update_price w s = (Return tt, s, [EvLog DEBUG [Lit "No message ID available for update"]])
  /\ http_gets (trace_of (update_price w s)) = []
  /\ edit_calls (trace_of (update_price w s)) = [].
Proof.
  intro Hnone.
  assert (Hfalsy : Py.truthy (message_id s) = false) by (rewrite Hnone; reflexivity).
  rewrite (update_price_falsy w s Hfalsy). repeat split.
Qed.

(** C5 as the code has it.  The text of a successful tick is the four-line
    block around the four formatted fields.  A price that is a finite number
    is rendered with thousands separators and exactly two decimal places, a
    finite rate with thousands separators and no decimals, before the
    currency word; a float that is an infinity or a NaN is rendered by its
    name.  In the first scenario of the specification the text shows
    $65,000.00, $3,200.00, $150.00 and 58,500. *)
Theorem price_block_rendering :
  (forall (w : world) (s : state) (body : string),
      successful_tick w s body ->
      exists (btc eth sol usdt rate : pyval) (b e so r : string),
        market_quotes w btc eth sol usdt
        /\ outcome_of (get_usdt_irr_rate w s) = Return rate
        /\ Fmt.format_f 2 btc = Return b /\ Fmt.format_f 2 eth = Return e
        /\ Fmt.format_f 2 sol = Return so /\ Fmt.format_f 0 rate = Return r
        /\ body = price_block b e so r
        /\ (finite_number btc -> fixed_point 2 b)
        /\ (finite_number eth -> fixed_point 2 e)
        /\ (finite_number sol -> fixed_point 2 so)
        /\ (finite_number rate -> fixed_point 0 r))
  /\ (forall (p : nat) (x : spec_float),
        Float64.is_finite x = false ->
        Fmt.format_f p (VFloat x) = Return "inf" \/ Fmt.format_f p (VFloat x) = Return "-inf"
        \/ Fmt.format_f p (VFloat x) = Return "nan")
  /\ edit_calls (trace_of (@update_price prices_channel decimal_builtins
                             Scenario.calm Scenario.tracking)) =
       [EvEditMessageText "@prices" (VInt 42)
          (price_block "65,000.00" "3,200.00" "150.00" "58,500")].
Proof.
  split; [ | split ].
  - intros w s body Htick.
    destruct (successful_tick_inversion w s body Htick)
      as (btc & eth & sol & usdt & rate & tr & Hid & Hquotes & Hrate & Htext).
    destruct (message_text_inversion btc eth sol rate body Htext)
      as (b & e & so & r & Hb & He & Hso & Hr & Hbody).
    exists btc, eth, sol, usdt, rate, b, e, so, r.
    rewrite Hrate. unfold outcome_of. simpl.
    repeat split; try assumption.
    + intro Hfin. exact (format_f_shape 2 btc b Hfin Hb).
    + intro Hfin. exact (format_f_shape 2 eth e Hfin He).
    + intro Hfin. exact (format_f_shape 2 sol so Hfin Hso).
    + intro Hfin. exact (format_f_shape 0 rate r Hfin Hr).
  - intros p x Hx. simpl.
    destruct (format_float_names p x Hx) as [-> | [-> | ->]]; auto.
  - vm_compute. reflexivity.
Qed.


(** C7 as the code has it.  [get_exchange_rate] is defined: a call of it
    would request the exchange-rates endpoint and, on a 200 answer, return
    rates -> usd -> value times 50000.  But nothing calls it: whatever
    commands and timer firings the process serves, it never requests that
    endpoint. *)
Theorem exchange_rates_are_never_fetched :
  (forall (w : world) (s : state),
      In (EvHttpGet EXCHANGE_RATES_URL) (trace_of (get_exchange_rate w s)))
  /\ (forall (w : world) (s : state) (r : response) (data usd_rate irr_rate : pyval),
        requests_get w EXCHANGE_RATES_URL = Return r -> status_code r = 200 ->
        json r = Return data -> usd_value data = Return usd_rate ->
        Py.mul_int usd_rate 50000 = Return irr_rate ->
        outcome_of (get_exchange_rate w s) = Return irr_rate)
  /\ (forall xs : list stimulus, ~ In (EvHttpGet EXCHANGE_RATES_URL) (snd (main xs))).
Proof.
  split; [ | split ].
  - intros w s.
    unfold get_exchange_rate, bind, try_except, call, lift, ret, log, emit, trace_of.
    destruct (requests_get w EXCHANGE_RATES_URL) as [r | e]; simpl; [ | left; reflexivity ].
    destruct (status_code r =? 200); simpl; [ | left; reflexivity ].
    repeat match goal with
           | |- context [match ?o with Return _ => _ | Raise _ => _ end] => destruct o; simpl
           end; left; reflexivity.
  - intros w s r data usd_rate irr_rate Hget Hs Hj Husd Hirr.
    unfold get_exchange_rate, bind, try_except, call, lift, ret, outcome_of.
    rewrite Hget. simpl. rewrite Hs, Hj. simpl. rewrite Husd, Hirr. reflexivity.
  - intros xs Hin.
    pose proof (main_skips_exchange_rates xs) as Hall.
    rewrite Forall_forall in Hall. exact (Hall _ Hin eq_refl).
Qed.

(** C8. When the destination check or the placeholder send raises, the
    handler ends with a reply to the triggering user that lists the three
    likely causes, the error detail and the configured channel id; before it
    the handler has only made those bootstrap calls and log lines: no timer
    is armed, nothing is fetched or edited, the state is untouched.  The
    process goes on serving: a later start command whose calls succeed
    stores the new identifier and arms the job. *)
Theorem bootstrap_failure_is_reported (w : world) (s : state) (e : exn) :
  bootstrap_raises w e ->
  (exists pre, Forall bootstrap_event pre
               /\ trace_of (start w s) = (pre ++ [EvReplyText (error_message e)])%list)
  /\ error_message e =
       "Error starting the bot. Please check:" ++ nl ++
       "1. The bot is an admin in the channel" ++ nl ++
       "2. The bot has permission to send and edit messages" ++ nl ++
       "3. The channel ID is correct" ++ nl ++
       "Error details: " ++ exn_str e ++ nl ++
       "Channel ID used: " ++ CHANNEL_ID
  /\ timers_armed (trace_of (start w s)) = []
  /\ http_gets (trace_of (start w s)) = []
  /\ edit_calls (trace_of (start w s)) = []
  /\ state_of (start w s) = s
  /\ forall (w' : world) (chat : string) (mid : pyval) (later : list stimulus),
       bot_get_chat w' CHANNEL_ID = Return chat ->
       bot_send_message w' CHANNEL_ID "Starting price updates..." = Return mid ->
       job_queue_run_repeating w' five_minutes = Return tt ->
       fst (run s (CmdStart w :: CmdStart w' :: later)) =
         fst (run {| message_id := mid; jobs := (jobs s ++ [five_minutes])%list;
                     chat_data_job := Some five_minutes |} later)
       /\ In (EvRunRepeating five_minutes) (snd (run s [CmdStart w; CmdStart w'])).
Proof.
  intro Hraises.
  destruct (start_fails w s e Hraises) as (pre & Hpre & Hstart).
  destruct (bootstrap_events_are_quiet pre (error_message e) Hpre) as (Ht & Hh & He).
  split; [ exists pre; rewrite Hstart; split; [ exact Hpre | reflexivity ] | ].
  split; [ reflexivity | ].
  split; [ rewrite Hstart; exact Ht | ].
  split; [ rewrite Hstart; exact Hh | ].
  split; [ rewrite Hstart; exact He | ].
  split; [ rewrite Hstart; reflexivity | ].
  intros w' chat mid later Hchat Hsend Hjob.
  destruct (start_succeeds w' s chat mid Hchat Hsend Hjob) as (Hstate & _ & Harmed).
  assert (Hfirst : step s (CmdStart w) = (s, (pre ++ [EvReplyText (error_message e)])%list)).
  { simpl. rewrite Hstart. reflexivity. }
  assert (Hsecond : step s (CmdStart w') =
                    ({| message_id := mid; jobs := (jobs s ++ [five_minutes])%list;
                        chat_data_job := Some five_minutes |}, trace_of (start w' s))).
  { simpl. rewrite Hstate. reflexivity. }
  split.
  - rewrite run_cons, Hfirst. cbn [fst snd].
    rewrite run_cons, Hsecond. reflexivity.
  - rewrite run_cons, Hfirst. cbn [fst snd].
    rewrite run_cons, Hsecond. cbn [fst snd run].
    apply in_or_app. right. rewrite app_nil_r. exact Harmed.
Qed.

(** C9. Whatever a tick does (no-op, market abort, success, failed edit), it
    leaves the process state, and so the tracked message reference, as it
    was; among the stimuli of the process only a start command can change
    [message_id]. *)
Theorem only_start_writes_message_id :
  (forall (w : world) (s : state),
      message_id (state_of (update_price w s)) = message_id s)
  /\ (forall (s : state) (x : stimulus),
      message_id (fst (step s x)) <> message_id s -> exists w, x = CmdStart w).
Proof.
  split.
  - intros w s. rewrite update_price_frames. reflexivity.
  - intros s [w | w] Hchanged.
    + exists w. reflexivity.
    + exfalso. apply Hchanged. simpl.
      destruct (jobs s); simpl; [ reflexivity | ].
      rewrite update_price_frames. reflexivity.
Qed.

(** C10. The existence test of the Update Cycle is a truthiness test: when
    the identifier captured by Bootstrap is falsy (0, for one), Bootstrap has
    sent the message and stored the identifier, and yet its own update and
    every later tick is a no-op, as if no message were tracked. *)
Theorem falsy_message_id_disables_updates (w : world) (s : state) (chat : string) (mid : pyval) :
  bot_get_chat w CHANNEL_ID = Return chat ->
  bot_send_message w CHANNEL_ID "Starting price updates..." = Return mid ->
  job_queue_run_repeating w {| interval := 300; first := 0 |} = Return tt ->
  Py.truthy mid = false ->
  In (EvSendMessage CHANNEL_ID "Starting price updates...") (trace_of (start w s))
  /\ message_id (state_of (start w s)) = mid
  /\ http_gets (trace_of (start w s)) = []
  /\ edit_calls (trace_of (start w s)) = []
  /\ forall ws : list world,
       fst (run (state_of (start w s)) (map JobFires ws)) = state_of (start w s)
       /\ http_gets (snd (run (state_of (start w s)) (map JobFires ws))) = []
       /\ edit_calls (snd (run (state_of (start w s)) (map JobFires ws))) = [].
Proof.
  intros Hchat Hsend Hjob Hfalsy.
  assert (Hstart : start w s =
    (Return tt,
     {| message_id := mid; jobs := (jobs s ++ [{| interval := 300; first := 0 |}])%list;
        chat_data_job := Some {| interval := 300; first := 0 |} |},
     [EvLog DEBUG [Lit "Received /start command"];
      EvLog DEBUG [Lit "Attempting to get chat info for "; Lit CHANNEL_ID];
      EvGetChat CHANNEL_ID;
      EvLog DEBUG [Lit "Chat info: "; Lit chat];
      EvLog DEBUG [Lit "Sending initial message to channel "; Lit CHANNEL_ID];
      EvSendMessage CHANNEL_ID "Starting price updates...";
      EvLog DEBUG [Lit "Message sent with ID: "; Interp mid];
      EvRunRepeating {| interval := 300; first := 0 |};
      EvLog DEBUG [Lit "Scheduled price updates every 5 minutes"];
      EvLog DEBUG [Lit "Performing initial price update"];
      EvLog DEBUG [Lit "No message ID available for update"];
      EvLog DEBUG [Lit "Initial price update completed"]])).
  { unfold start, bind, try_except, call, log, emit, write_message_id, read_message_id,
      add_job, write_chat_data_job.
    rewrite Hchat, Hsend, Hjob. simpl.
    rewrite update_price_falsy by exact Hfalsy. reflexivity. }
  rewrite Hstart. unfold trace_of, state_of. simpl.
  split; [ | split; [ | split; [ | split ] ] ]; try reflexivity.
  - do 5 right. left. reflexivity.
  - intro ws. apply falsy_ticks_are_idle. exact Hfalsy.
Qed.

End Properties.

(** ** Further properties of the code *)

Section Coverage.

Context {cfg : Config} {bi : Py.Builtins}.

(** Checks each event of an explicit trace against the cases of a
    disjunction. *)
Ltac each_event :=
  repeat (apply Forall_cons;
          [ first [ left; reflexivity | right; left; reflexivity
                  | right; right; reflexivity | right; reflexivity ] | ]);
  apply Forall_nil.

Ltac run_fetcher :=
  unfold get_exchange_rate, get_usdt_irr_rate, bind, try_except, call, log, emit, lift, ret.

(** *** The two rate fetchers *)

Lemma get_exchange_rate_total (w : world) (s : state) :
  exists v tr,
    get_exchange_rate w s = (Return v, s, tr)
    /\ Forall exchange_event tr
    /\ http_gets tr = [EvHttpGet EXCHANGE_RATES_URL].
Proof.
  run_fetcher. unfold exchange_event.
  destruct (requests_get w EXCHANGE_RATES_URL) as [r | e]; simpl.
  2: { eexists; eexists; split; [ reflexivity | split; [ each_event | reflexivity ] ]. }
  destruct (status_code r =? 200); simpl.
  2: { eexists; eexists; split; [ reflexivity | split; [ each_event | reflexivity ] ]. }
  destruct (json r) as [data | e]; simpl.
  2: { eexists; eexists; split; [ reflexivity | split; [ each_event | reflexivity ] ]. }
  destruct (usd_value data) as [usd | e]; simpl.
  2: { eexists; eexists; split; [ reflexivity | split; [ each_event | reflexivity ] ]. }
  destruct (Py.mul_int usd 50000) as [irr | e]; simpl;
    eexists; eexists; (split; [ reflexivity | split; [ each_event | reflexivity ] ]).
Qed.

(** X2. [get_exchange_rate] never lets an exception out and leaves the
    process state alone; a call makes exactly one request, to the
    exchange-rates endpoint, and apart from log lines nothing else. *)
Theorem get_exchange_rate_is_contained (w : world) (s : state) :
  (exists v, outcome_of (get_exchange_rate w s) = Return v)
  /\ state_of (get_exchange_rate w s) = s
  /\ http_gets (trace_of (get_exchange_rate w s)) = [EvHttpGet EXCHANGE_RATES_URL]
  /\ Forall exchange_event (trace_of (get_exchange_rate w s)).
Proof.
  destruct (get_exchange_rate_total w s) as (v & tr & -> & Hev & Hget).
  unfold outcome_of, state_of, trace_of. simpl.
  split; [ exists v; reflexivity | split; [ reflexivity | split; assumption ] ].
Qed.

(** X3. When the exchange-rates fetch fails in any way (the request raises,
    the status is not 200, the body does not decode, rates/usd/value is not
    there, or the value cannot be multiplied), [get_exchange_rate] returns
    the int 50000. *)
Theorem exchange_failure_falls_back_to_50000 (w : world) (s : state) :
  exchange_fetch_fails w ->
  outcome_of (get_exchange_rate w s) = Return (VInt 50000).
Proof.
  intro Hfail. run_fetcher. unfold outcome_of.
  destruct Hfail as [e H | r H Hs | r e H Hs Hj | r data e H Hs Hj Hv
                    | r data usd e H Hs Hj Hv Hm]; rewrite H; simpl.
  - reflexivity.
  - apply Z.eqb_neq in Hs. rewrite Hs. reflexivity.
  - apply Z.eqb_eq in Hs. rewrite Hs, Hj. reflexivity.
  - apply Z.eqb_eq in Hs. rewrite Hs, Hj. simpl. rewrite Hv. reflexivity.
  - apply Z.eqb_eq in Hs. rewrite Hs, Hj. simpl. rewrite Hv. simpl. rewrite Hm. reflexivity.
Qed.

(** The rate fetcher makes one request, to the order book. *)
Lemma get_usdt_irr_rate_result (w : world) (s : state) :
  exists rate tr,
    get_usdt_irr_rate w s = (Return rate, s, tr)
    /\ Forall book_event tr
    /\ http_gets tr = [EvHttpGet ORDERBOOK_URL]
    /\ (rate = VInt 50000 \/ exists x, rate = VFloat x).
Proof.
  run_fetcher. unfold book_event.
  destruct (requests_get w ORDERBOOK_URL) as [r | e]; simpl.
  2: { eexists; eexists; split; [ reflexivity | split; [ each_event | split; [ reflexivity | left; reflexivity ] ] ]. }
  destruct (status_code r =? 200); simpl.
  2: { eexists; eexists; split; [ reflexivity | split; [ each_event | split; [ reflexivity | left; reflexivity ] ] ]. }
  destruct (json r) as [data | e]; simpl.
  2: { eexists; eexists; split; [ reflexivity | split; [ each_event | split; [ reflexivity | left; reflexivity ] ] ]. }
  destruct (best_price data "bids") as [b | e]; simpl.
  2: { eexists; eexists; split; [ reflexivity | split; [ each_event | split; [ reflexivity | left; reflexivity ] ] ]. }
  destruct (best_price data "asks") as [a | e]; simpl.
  2: { eexists; eexists; split; [ reflexivity | split; [ each_event | split; [ reflexivity | left; reflexivity ] ] ]. }
  eexists; eexists; split; [ reflexivity | split; [ each_event | split; [ reflexivity | ] ] ].
  right. eexists. reflexivity.
Qed.

Lemma rate_formats (rate : pyval) :
  rate = VInt 50000 \/ (exists x, rate = VFloat x) -> formats 0 rate.
Proof.
  intros [-> | [x ->]].
  - exists "50,000". vm_compute. reflexivity.
  - exists (Fmt.format_float 0 x). reflexivity.
Qed.

(** X4. Every call of [get_usdt_irr_rate] makes exactly one request, to the
    order book, and comes back with the int 50000 or with a float, never
    with an exception; either way the rate is a value the format spec [,.0f]
    of the message accepts. *)
Theorem usdt_rate_is_always_usable (w : world) (s : state) :
  exists rate,
    outcome_of (get_usdt_irr_rate w s) = Return rate
    /\ (rate = VInt 50000 \/ exists x, rate = VFloat x)
    /\ formats 0 rate
    /\ http_gets (trace_of (get_usdt_irr_rate w s)) = [EvHttpGet ORDERBOOK_URL].
Proof.
  destruct (get_usdt_irr_rate_result w s) as (rate & tr & -> & _ & Hget & Hrate).
  exists rate. unfold outcome_of, trace_of. simpl.
  split; [ reflexivity | split; [ exact Hrate | split; [ | exact Hget ] ] ].
  apply rate_formats. exact Hrate.
Qed.

Lemma unreadable_side_raises (d : list (string * pyval)) (side : string) :
  side_unreadable d side -> exists e, best_price (VDict d) side = Raise e.
Proof.
  unfold best_price. simpl. intros [-> | ->]; simpl; eexists; reflexivity.
Qed.

(** X5. A 200 answer of the order book whose body lacks the bids or the
    asks, or lists none, makes [get_usdt_irr_rate] return the int 50000: the
    KeyError or IndexError of the lookup is caught like any other failure. *)
Theorem empty_book_falls_back_to_50000 (w : world) (s : state) (r : response)
    (d : list (string * pyval)) :
  requests_get w ORDERBOOK_URL = Return r ->
  status_code r = 200 ->
  json r = Return (VDict d) ->
  side_unreadable d "bids" \/ side_unreadable d "asks" ->
  outcome_of (get_usdt_irr_rate w s) = Return (VInt 50000).
Proof.
  intros Hget Hs Hj Hside.
  assert (Hread : exists e, read_book r = Raise e).
  { unfold read_book. rewrite Hj. simpl.
    destruct Hside as [Hbids | Hasks].
    - destruct (unreadable_side_raises d "bids" Hbids) as [e ->]. exists e. reflexivity.
    - destruct (best_price (VDict d) "bids") as [b | e]; simpl; [ | exists e; reflexivity ].
      destruct (unreadable_side_raises d "asks" Hasks) as [e ->]. exists e. reflexivity. }
  destruct Hread as [e Hread].
  destruct (book_failure_rate w s (book_read_raises w r e Hget Hs Hread)) as (tr & -> & _).
  reflexivity.
Qed.

(** *** The update cycle *)

Ltac tick_case :=
  unfold tick_event;
  first [ left; reflexivity | right; left; reflexivity
        | right; right; left; reflexivity | right; right; right; reflexivity ].

Lemma get_usdt_irr_rate_tick_events (w : world) : emits_only tick_event (get_usdt_irr_rate w).
Proof.
  unfold get_usdt_irr_rate.
  repeat (emits_step; try (apply emits_log); try tick_case).
Qed.

Lemma update_price_tick_events (w : world) : emits_only tick_event (update_price w).
Proof.
  unfold update_price. pose proof (get_usdt_irr_rate_tick_events w) as Hrate.
  repeat (emits_step; try (apply emits_log); try tick_case; try exact Hrate).
Qed.

Lemma market_failure_requests (w : world) (s : state) :
  Py.truthy (message_id s) = true ->
  market_fetch_fails w ->
  http_gets (trace_of (update_price w s)) = [EvHttpGet MARKET_URL].
Proof.
  intros Hid Hfail.
  unfold update_price, get_usdt_irr_rate, bind, try_except, call, log, emit, lift, ret,
    read_message_id, trace_of.
  rewrite Hid. simpl.
  destruct Hfail as [e H | r H Hs | r e H Hs Hj | r data asset e H Hs Hj Hin Hq]; rewrite H; simpl.
  - reflexivity.
  - apply Z.eqb_neq in Hs. rewrite Hs. reflexivity.
  - apply Z.eqb_eq in Hs. rewrite Hs, Hj. reflexivity.
  - apply Z.eqb_eq in Hs. rewrite Hs, Hj. simpl.
    destruct (quote data "bitcoin") as [b | eb] eqn:Hb; [ | reflexivity ].
    destruct (quote data "ethereum") as [et | ee] eqn:He; [ | reflexivity ].
    destruct (quote data "solana") as [so | es] eqn:Hso; [ | reflexivity ].
    destruct (quote data "tether") as [t | etr] eqn:Ht; [ | reflexivity ].
    exfalso. simpl in Hin.
    destruct Hin as [<- | [<- | [<- | [<- | []]]]]; congruence.
Qed.

(** The trace of a tick that has the quotes, with the rate fetcher's own
    part [tr] in the middle. *)
Lemma tick_with_quotes (w : world) (s : state) (btc eth sol usdt : pyval) :
  Py.truthy (message_id s) = true ->
  market_quotes w btc eth sol usdt ->
  exists rate tr,
    get_usdt_irr_rate w s = (Return rate, s, tr)
    /\ Forall book_event tr
    /\ http_gets tr = [EvHttpGet ORDERBOOK_URL]
    /\ formats 0 rate
    /\ update_price w s =
         (Return tt, s,
          ([EvLog DEBUG [Lit "Fetching crypto prices from CoinGecko API"];
            EvHttpGet MARKET_URL;
            EvLog DEBUG [Lit "API Response status: "; Interp (VInt 200)];
            EvLog DEBUG [Lit "Successfully parsed API response"]] ++ tr ++
           [EvDatetimeNow "Asia/Tehran" "%Y-%m-%d %H:%M:%S"] ++
           match message_text btc eth sol rate with
           | Return body =>
               [EvLog DEBUG [Lit "Updating message with new prices"];
                EvEditMessageText CHANNEL_ID (message_id s) body] ++
               match bot_edit_message_text w CHANNEL_ID (message_id s) body with
               | Return _ => [EvLog DEBUG [Lit "Message updated successfully"]]
               | Raise e => [EvLog ERROR [Lit "Error updating price: "; Lit (exn_str e)];
                             EvLog ERROR [Lit "Error details: "; Lit (exn_str e)]]
               end
           | Raise e => [EvLog ERROR [Lit "Error updating price: "; Lit (exn_str e)];
                         EvLog ERROR [Lit "Error details: "; Lit (exn_str e)]]
           end)%list).
Proof.
  intros Hid Hquotes.
  destruct (get_usdt_irr_rate_result w s) as (rate & tr & Hrate & Hev & Hget & Hkind).
  exists rate, tr.
  split; [ exact Hrate | split; [ exact Hev | split; [ exact Hget | split ] ] ].
  - apply rate_formats. exact Hkind.
  - exact (update_price_with_quotes w s btc eth sol usdt rate tr Hid Hquotes Hrate).
Qed.

Lemma http_gets_app (t1 t2 : list event) :
  http_gets (t1 ++ t2) = (http_gets t1 ++ http_gets t2)%list.
Proof. apply filter_app. Qed.

Lemma edit_calls_app (t1 t2 : list event) :
  edit_calls (t1 ++ t2) = (edit_calls t1 ++ edit_calls t2)%list.
Proof. apply filter_app. Qed.

(** X6. A tick requests the market quotes first and the order book only
    once the four quotes are in: no request without a tracked message, the
    market request alone when that fetch fails, both requests in this order
    otherwise. *)
Theorem tick_requests_in_order (w : world) (s : state) :
  (Py.truthy (message_id s) = false -> http_gets (trace_of (update_price w s)) = [])
  /\ (Py.truthy (message_id s) = true -> market_fetch_fails w ->
      http_gets (trace_of (update_price w s)) = [EvHttpGet MARKET_URL])
  /\ (forall btc eth sol usdt : pyval,
        Py.truthy (message_id s) = true -> market_quotes w btc eth sol usdt ->
        http_gets (trace_of (update_price w s)) =
          [EvHttpGet MARKET_URL; EvHttpGet ORDERBOOK_URL]).
Proof.
  split; [ | split ].
  - intro Hid. rewrite (update_price_falsy w s Hid). reflexivity.
  - exact (market_failure_requests w s).
  - intros btc eth sol usdt Hid Hquotes.
    destruct (tick_with_quotes w s btc eth sol usdt Hid Hquotes)
      as (rate & tr & _ & _ & Hget & _ & ->).
    unfold trace_of. simpl. rewrite http_gets_app, Hget. simpl.
    destruct (message_text btc eth sol rate) as [body | e]; simpl; [ | reflexivity ].
    destruct (bot_edit_message_text w CHANNEL_ID (message_id s) body); reflexivity.
Qed.

Lemma message_text_formats (btc eth sol rate : pyval) :
  formats 0 rate ->
  (exists body, message_text btc eth sol rate = Return body)
  <-> formats 2 btc /\ formats 2 eth /\ formats 2 sol.
Proof.
  intros [r Hr]. unfold message_text, formats. split.
  - intros [body H].
    destruct (Fmt.format_f 2 btc) as [b | x]; simpl in H; [ | discriminate H ].
    destruct (Fmt.format_f 2 eth) as [e | x]; simpl in H; [ | discriminate H ].
    destruct (Fmt.format_f 2 sol) as [so | x]; simpl in H; [ | discriminate H ].
    repeat split; eexists; reflexivity.
  - intros ([b ->] & [e ->] & [so ->]). rewrite Hr. simpl. eexists. reflexivity.
Qed.

(** X7. Once the four quotes are in, whether the tick edits the message is
    decided by the three prices alone: it makes its edit call exactly when
    each of them is a value the format spec [,.2f] accepts; a price of
    another type ends the tick without an edit. *)
Theorem tick_edits_iff_prices_format (w : world) (s : state) (btc eth sol usdt : pyval) :
  Py.truthy (message_id s) = true ->
  market_quotes w btc eth sol usdt ->
  ((exists body, edit_calls (trace_of (update_price w s)) =
                   [EvEditMessageText CHANNEL_ID (message_id s) body])
   <-> formats 2 btc /\ formats 2 eth /\ formats 2 sol)
  /\ (edit_calls (trace_of (update_price w s)) = []
      <-> ~ (formats 2 btc /\ formats 2 eth /\ formats 2 sol)).
Proof.
  intros Hid Hquotes.
  destruct (tick_with_quotes w s btc eth sol usdt Hid Hquotes)
    as (rate & tr & _ & Hev & _ & Hfmt & ->).
  pose proof (message_text_formats btc eth sol rate Hfmt) as Hiff.
  unfold trace_of. simpl. rewrite edit_calls_app, (book_events_hold_no_edit tr Hev). simpl.
  destruct (message_text btc eth sol rate) as [body | e]; simpl.
  - assert (Hcalls : edit_calls
              (match bot_edit_message_text w CHANNEL_ID (message_id s) body with
               | Return _ => [EvLog DEBUG [Lit "Message updated successfully"]]
               | Raise e => [EvLog ERROR [Lit "Error updating price: "; Lit (exn_str e)];
                             EvLog ERROR [Lit "Error details: "; Lit (exn_str e)]]
               end) = [])
      by (destruct (bot_edit_message_text w CHANNEL_ID (message_id s) body); reflexivity).
    unfold edit_calls in *. simpl. rewrite Hcalls.
    assert (Hall : formats 2 btc /\ formats 2 eth /\ formats 2 sol)
      by (apply Hiff; exists body; reflexivity).
    split; split.
    + intros _. exact Hall.
    + intros _. exists body. reflexivity.
    + discriminate.
    + intro Hno. contradiction.
  - assert (Hnone : ~ (formats 2 btc /\ formats 2 eth /\ formats 2 sol)).
    { intro Hall. apply Hiff in Hall. destruct Hall as [body H]. discriminate H. }
    split; split.
    + intros [body H]. discriminate H.
    + intro Hall. contradiction.
    + intros _. exact Hnone.
    + intros _. reflexivity.
Qed.

Lemma no_edit_among (P : event -> Prop) (t : list event) :
  edit_calls t = [] -> (forall ev, is_edit ev = false -> P ev) -> Forall P t.
Proof.
  intros Hnone Hother. induction t as [| ev t IH]; [ constructor | ].
  unfold edit_calls in *. simpl in Hnone.
  destruct (is_edit ev) eqn:Hev; [ discriminate Hnone | ].
  constructor; [ apply Hother; exact Hev | apply IH; exact Hnone ].
Qed.

(** The edit calls of a tick: none, or one for the tracked message. *)
Lemma update_price_edit_calls (w : world) (s : state) :
  edit_calls (trace_of (update_price w s)) = []
  \/ (Py.truthy (message_id s) = true
      /\ exists body, edit_calls (trace_of (update_price w s)) =
                        [EvEditMessageText CHANNEL_ID (message_id s) body]).
Proof.
  destruct (Py.truthy (message_id s)) eqn:Hid.
  2: { left. rewrite (update_price_falsy w s Hid). reflexivity. }
  destruct (market_decides w) as [Hfail | (btc & eth & sol & usdt & Hquotes)].
  { left. exact (market_failure_no_edit w s Hid Hfail). }
  destruct (tick_with_quotes w s btc eth sol usdt Hid Hquotes)
    as (rate & tr & _ & Hev & _ & _ & ->).
  unfold trace_of. simpl. rewrite edit_calls_app, (book_events_hold_no_edit tr Hev). simpl.
  destruct (message_text btc eth sol rate) as [body | e]; simpl; [ | left; reflexivity ].
  right. split; [ reflexivity | exists body ].
  destruct (bot_edit_message_text w CHANNEL_ID (message_id s) body); reflexivity.
Qed.

(** X8. A tick leaves nothing but log lines, requests, edit calls and the
    reading of the clock: it never sends, replies, checks the destination or
    arms a timer.  It makes at most one edit call, and that one is for the
    configured channel and the message identifier the process tracks. *)
Theorem tick_footprint (w : world) (s : state) :
  Forall tick_event (trace_of (update_price w s))
  /\ (edit_calls (trace_of (update_price w s)) = []
      \/ exists body, edit_calls (trace_of (update_price w s)) =
                        [EvEditMessageText CHANNEL_ID (message_id s) body]).
Proof.
  split; [ apply update_price_tick_events | ].
  destruct (update_price_edit_calls w s) as [Hnone | [_ Hone]]; [ left | right ]; assumption.
Qed.

(** X9. When the edit call itself raises, the tick still returns normally
    and leaves the state alone: the one edit attempt is followed by two
    error records that carry the text of the exception, and nothing is
    retried. *)
Theorem failed_edit_is_logged (w : world) (s : state) (btc eth sol usdt : pyval)
    (e : exn) :
  Py.truthy (message_id s) = true ->
  market_quotes w btc eth sol usdt ->
  (forall body, bot_edit_message_text w CHANNEL_ID (message_id s) body = Raise e) ->
  formats 2 btc -> formats 2 eth -> formats 2 sol ->
  exists (pre : list event) (body : string),
    update_price w s =
      (Return tt, s,
       (pre ++ [EvEditMessageText CHANNEL_ID (message_id s) body;
                EvLog ERROR [Lit "Error updating price: "; Lit (exn_str e)];
                EvLog ERROR [Lit "Error details: "; Lit (exn_str e)]])%list)
    /\ edit_calls pre = [].
Proof.
  intros Hid Hquotes Hedit Hb He Hso.
  destruct (tick_with_quotes w s btc eth sol usdt Hid Hquotes)
    as (rate & tr & _ & Hev & _ & Hfmt & ->).
  destruct (proj2 (message_text_formats btc eth sol rate Hfmt) (conj Hb (conj He Hso)))
    as [body ->].
  rewrite (Hedit body).
  exists ([EvLog DEBUG [Lit "Fetching crypto prices from CoinGecko API"];
           EvHttpGet MARKET_URL;
           EvLog DEBUG [Lit "API Response status: "; Interp (VInt 200)];
           EvLog DEBUG [Lit "Successfully parsed API response"]] ++ tr ++
          [EvDatetimeNow "Asia/Tehran" "%Y-%m-%d %H:%M:%S";
           EvLog DEBUG [Lit "Updating message with new prices"]])%list, body.
  split.
  - simpl. rewrite <- !app_assoc. reflexivity.
  - simpl. rewrite edit_calls_app, (book_events_hold_no_edit tr Hev). reflexivity.
Qed.

Lemma get_usdt_irr_rate_reads_book_only (w w' : world) (s : state) :
  requests_get w ORDERBOOK_URL = requests_get w' ORDERBOOK_URL ->
  get_usdt_irr_rate w s = get_usdt_irr_rate w' s.
Proof.
  intro Hsame.
  unfold get_usdt_irr_rate, bind, try_except, call, log, emit, lift, ret.
  rewrite Hsame. reflexivity.
Qed.

(** X10. The tether quote has to be in the market body, but its value is
    never shown: two ticks that differ in nothing but that value make the
    same edit call. *)
Theorem tether_quote_is_not_shown (w w' : world) (s : state)
    (btc eth sol usdt usdt' : pyval) :
  Py.truthy (message_id s) = true ->
  market_quotes w btc eth sol usdt ->
  market_quotes w' btc eth sol usdt' ->
  requests_get w ORDERBOOK_URL = requests_get w' ORDERBOOK_URL ->
  edit_calls (trace_of (update_price w s)) = edit_calls (trace_of (update_price w' s)).
Proof.
  intros Hid Hq Hq' Hbook.
  destruct (get_usdt_irr_rate_result w s) as (rate & tr & Hrate & Hev & _ & _).
  assert (Hrate' : get_usdt_irr_rate w' s = (Return rate, s, tr))
    by (rewrite <- (get_usdt_irr_rate_reads_book_only w w' s Hbook); exact Hrate).
  rewrite (update_price_with_quotes w s btc eth sol usdt rate tr Hid Hq Hrate).
  rewrite (update_price_with_quotes w' s btc eth sol usdt' rate tr Hid Hq' Hrate').
  unfold trace_of. simpl. rewrite !edit_calls_app, (book_events_hold_no_edit tr Hev). simpl.
  destruct (message_text btc eth sol rate) as [body | e]; simpl; [ | reflexivity ].
  unfold edit_calls. simpl.
  destruct (bot_edit_message_text w CHANNEL_ID (message_id s) body);
    destruct (bot_edit_message_text w' CHANNEL_ID (message_id s) body); reflexivity.
Qed.

(** *** The lines of the message *)

Lemma field_text_append (a b : string) : field_text (a ++ b) = field_text a && field_text b.
Proof.
  induction a as [| x a IH]; simpl; [ reflexivity | ].
  rewrite IH, andb_assoc. reflexivity.
Qed.

Lemma digit_is_field_char (c : ascii) : Fmt.is_digit c = true -> field_char c = true.
Proof. intro H. unfold field_char. rewrite H. reflexivity. Qed.

Lemma digits_are_field_text (s : string) : Fmt.all_digits s = true -> field_text s = true.
Proof.
  induction s as [| c r IH]; simpl; [ reflexivity | ].
  intro H. apply andb_prop in H. destruct H as [Hc Hr].
  rewrite (digit_is_field_char c Hc), (IH Hr). reflexivity.
Qed.

Lemma group3_is_field_text (d : string) :
  Fmt.all_digits d = true -> field_text (Fmt.group3 d) = true.
Proof.
  induction d as [| c r IH]; simpl; [ reflexivity | ].
  intro H. apply andb_prop in H. destruct H as [Hc Hr].
  rewrite (digit_is_field_char c Hc). cbn [andb].
  match goal with |- context [if ?cond then _ else _] => destruct cond end;
    simpl; exact (IH Hr).
Qed.

Lemma fixed_is_field_text (p : nat) (n : Z) : field_text (Fmt.fixed p n) = true.
Proof.
  unfold Fmt.fixed. rewrite field_text_append.
  destruct (int_digits_shape (n / 10 ^ Z.of_nat p)) as [Hdig _].
  rewrite (group3_is_field_text _ Hdig). simpl.
  destruct p as [| p]; [ reflexivity | ].
  simpl "++". cbn [field_text]. replace (field_char ".") with true by reflexivity.
  cbn [andb]. apply digits_are_field_text. apply frac_digits_shape.
Qed.

Lemma format_float_is_field_text (p : nat) (x : spec_float) :
  field_text (Fmt.format_float p x) = true.
Proof.
  destruct x as [neg | neg | | neg m e]; simpl.
  - rewrite field_text_append, fixed_is_field_text. destruct neg; reflexivity.
  - destruct neg; reflexivity.
  - reflexivity.
  - rewrite field_text_append, fixed_is_field_text. destruct neg; reflexivity.
Qed.

Lemma format_f_is_field_text (p : nat) (v : pyval) (x : string) :
  Fmt.format_f p v = Return x -> field_text x = true.
Proof.
  destruct v as [| b | z | f | t | l | d]; simpl; intro H; try discriminate H.
  - destruct (Py.int_to_float (Py.bool_to_Z b)) as [y | e]; simpl in H; inversion H.
    apply format_float_is_field_text.
  - destruct (Py.int_to_float z) as [y | e]; simpl in H; inversion H.
    apply format_float_is_field_text.
  - inversion H. apply format_float_is_field_text.
Qed.

Lemma count_char_append (c : ascii) (a b : string) :
  count_char c (a ++ b) = (count_char c a + count_char c b)%nat.
Proof.
  induction a as [| x a IH]; simpl; [ reflexivity | rewrite IH; lia ].
Qed.

Lemma field_text_has_no (c : ascii) (s : string) :
  field_char c = false -> field_text s = true -> count_char c s = O.
Proof.
  intro Hc. induction s as [| a r IH]; simpl; [ reflexivity | ].
  intro H. apply andb_prop in H. destruct H as [Ha Hr].
  rewrite (IH Hr).
  destruct (Ascii.eqb_spec a c) as [-> | _]; [ congruence | reflexivity ].
Qed.

Lemma price_block_lines (b e so r : string) :
  field_text b = true -> field_text e = true -> field_text so = true ->
  field_text r = true ->
  count_char (ascii_of_nat 10) (price_block b e so r) = 3%nat
  /\ count_char "$" (price_block b e so r) = 3%nat.
Proof.
  intros Hb He Hso Hr. unfold price_block, nl.
  rewrite !count_char_append.
  rewrite (field_text_has_no (ascii_of_nat 10) b), (field_text_has_no (ascii_of_nat 10) e),
    (field_text_has_no (ascii_of_nat 10) so), (field_text_has_no (ascii_of_nat 10) r),
    (field_text_has_no "$" b), (field_text_has_no "$" e),
    (field_text_has_no "$" so), (field_text_has_no "$" r)
    by (reflexivity || assumption).
  split; reflexivity.
Qed.

(** X11. Whatever numbers arrive, also an infinity or a NaN, the text a
    tick sends has exactly four lines and three dollar signs: a formatted
    field holds digits, commas, a point, a minus sign or one of the names
    inf and nan, never a line break. *)
Theorem message_has_four_lines (w : world) (s : state) (body : string) :
  In (EvEditMessageText CHANNEL_ID (message_id s) body) (trace_of (update_price w s)) ->
  count_char (ascii_of_nat 10) body = 3%nat /\ count_char "$" body = 3%nat.
Proof.
  intro Hin.
  assert (Hcalls : In (EvEditMessageText CHANNEL_ID (message_id s) body)
                      (edit_calls (trace_of (update_price w s))))
    by (apply filter_In; split; [ exact Hin | reflexivity ]).
  destruct (Py.truthy (message_id s)) eqn:Hid.
  2: { rewrite (update_price_falsy w s Hid) in Hcalls. contradiction. }
  destruct (market_decides w) as [Hfail | (btc & eth & sol & usdt & Hquotes)].
  { rewrite (market_failure_no_edit w s Hid Hfail) in Hcalls. contradiction. }
  destruct (tick_with_quotes w s btc eth sol usdt Hid Hquotes)
    as (rate & tr & _ & Hev & _ & _ & Hrun).
  rewrite Hrun in Hcalls. unfold trace_of in Hcalls. simpl in Hcalls.
  rewrite edit_calls_app, (book_events_hold_no_edit tr Hev) in Hcalls. simpl in Hcalls.
  destruct (message_text btc eth sol rate) as [body' | e] eqn:Htext;
    [ | contradiction ].
  assert (body' = body) as ->.
  { unfold edit_calls in Hcalls. simpl in Hcalls.
    destruct Hcalls as [Heq | Hrest]; [ inversion Heq; reflexivity | ].
    destruct (bot_edit_message_text w CHANNEL_ID (message_id s) body');
      simpl in Hrest; contradiction. }
  destruct (message_text_inversion btc eth sol rate body Htext)
    as (b & e & so & r & Hb & He & Hso & Hr & ->).
  apply price_block_lines; eapply format_f_is_field_text; eassumption.
Qed.

(** *** The bootstrap *)

Ltac run_bootstrap :=
  unfold start, bind, try_except, call, log, emit, lift, ret, write_message_id,
    read_message_id, add_job, write_chat_data_job.

Lemma start_runs_update (w : world) (s : state) (chat : string) (mid : pyval) :
  bot_get_chat w CHANNEL_ID = Return chat ->
  bot_send_message w CHANNEL_ID "Starting price updates..." = Return mid ->
  job_queue_run_repeating w five_minutes = Return tt ->
  start w s =
    (Return tt, bootstrapped s mid,
     (bootstrap_calls chat mid ++ trace_of (update_price w (bootstrapped s mid)) ++
      [EvLog DEBUG [Lit "Initial price update completed"]])%list).
Proof.
  intros Hchat Hsend Hjob. unfold bootstrapped, bootstrap_calls, five_minutes in *.
  run_bootstrap. rewrite Hchat, Hsend, Hjob. simpl.
  match goal with |- context [update_price w ?s1] =>
    pose proof (update_price_frames w s1) as Hframe;
    destruct (update_price_returns w s1) as [[] Hret];
    unfold state_of in Hframe; unfold outcome_of in Hret;
    destruct (update_price w s1) as [[o s2] t]
  end.
  simpl in *. subst o s2. reflexivity.
Qed.

Lemma start_without_timer (w : world) (s : state) (chat : string) (mid : pyval) (e : exn) :
  bot_get_chat w CHANNEL_ID = Return chat ->
  bot_send_message w CHANNEL_ID "Starting price updates..." = Return mid ->
  job_queue_run_repeating w five_minutes = Raise e ->
  start w s =
    (message_reply_text w (error_message e),
     {| message_id := mid; jobs := jobs s; chat_data_job := chat_data_job s |},
     (unarmed_calls chat mid e ++ [EvReplyText (error_message e)])%list).
Proof.
  intros Hchat Hsend Hjob. unfold unarmed_calls, five_minutes in *.
  run_bootstrap. rewrite Hchat, Hsend, Hjob. reflexivity.
Qed.

(** The three ways a bootstrap can go. *)
Lemma start_decides (w : world) :
  (exists e, bootstrap_raises w e)
  \/ (exists chat mid e,
        bot_get_chat w CHANNEL_ID = Return chat
        /\ bot_send_message w CHANNEL_ID "Starting price updates..." = Return mid
        /\ job_queue_run_repeating w five_minutes = Raise e)
  \/ (exists chat mid,
        bot_get_chat w CHANNEL_ID = Return chat
        /\ bot_send_message w CHANNEL_ID "Starting price updates..." = Return mid
        /\ job_queue_run_repeating w five_minutes = Return tt).
Proof.
  destruct (bot_get_chat w CHANNEL_ID) as [chat | e] eqn:Hchat.
  2: { left. exists e. apply get_chat_raises. exact Hchat. }
  destruct (bot_send_message w CHANNEL_ID "Starting price updates...") as [mid | e] eqn:Hsend.
  2: { left. exists e. apply (send_message_raises w e chat); assumption. }
  destruct (job_queue_run_repeating w five_minutes) as [[] | e] eqn:Hjob.
  - right. right. exists chat, mid. repeat split.
  - right. left. exists chat, mid, e. repeat split.
Qed.

Lemma tick_events_hold_no_send (t : list event) :
  Forall tick_event t -> sends t = [] /\ timers_armed t = [].
Proof.
  unfold sends, timers_armed.
  induction 1 as [| ev t Hev _ IH]; [ split; reflexivity | ].
  simpl. destruct Hev as [H | [H | [H | H]]]; destruct ev; try discriminate H; simpl; exact IH.
Qed.

(** X12. A bootstrap whose destination check, send and timer call succeed
    stores the identifier of the sent message, arms one job (every 300
    seconds, first firing at once), notes it in the chat data and then runs
    one update in the new state, in this order; it returns normally, having
    sent one message and armed one timer. *)
Theorem bootstrap_then_first_update (w : world) (s : state) (chat : string) (mid : pyval) :
  bot_get_chat w CHANNEL_ID = Return chat ->
  bot_send_message w CHANNEL_ID "Starting price updates..." = Return mid ->
  job_queue_run_repeating w {| interval := 300; first := 0 |} = Return tt ->
  start w s =
    (Return tt,
     {| message_id := mid; jobs := (jobs s ++ [{| interval := 300; first := 0 |}])%list;
        chat_data_job := Some {| interval := 300; first := 0 |} |},
     (bootstrap_calls chat mid
      ++ trace_of (update_price w
           {| message_id := mid;
              jobs := (jobs s ++ [{| interval := 300; first := 0 |}])%list;
              chat_data_job := Some {| interval := 300; first := 0 |} |})
      ++ [EvLog DEBUG [Lit "Initial price update completed"]])%list)
  /\ sends (trace_of (start w s)) = [EvSendMessage CHANNEL_ID "Starting price updates..."]
  /\ timers_armed (trace_of (start w s)) = [EvRunRepeating {| interval := 300; first := 0 |}].
Proof.
  intros Hchat Hsend Hjob.
  pose proof (start_runs_update w s chat mid Hchat Hsend Hjob) as Hrun.
  unfold bootstrapped, five_minutes in Hrun.
  split; [ exact Hrun | ].
  rewrite Hrun. unfold trace_of at 1 3. cbn [snd].
  match goal with |- context [update_price w ?s1] =>
    destruct (tick_events_hold_no_send _ (update_price_tick_events w s1)) as [Hs Ht]
  end.
  unfold sends, timers_armed in *.
  rewrite !filter_app, Hs, Ht. split; reflexivity.
Qed.

(** X13. When arming the timer raises after the placeholder was sent, the
    identifier of that message stays stored although no job is armed and no
    update is run: the handler makes no request and no edit, and replies
    with the error text for that exception. *)
Theorem timer_failure_keeps_message_id (w : world) (s : state) (chat : string)
    (mid : pyval) (e : exn) :
  bot_get_chat w CHANNEL_ID = Return chat ->
  bot_send_message w CHANNEL_ID "Starting price updates..." = Return mid ->
  job_queue_run_repeating w {| interval := 300; first := 0 |} = Raise e ->
  message_id (state_of (start w s)) = mid
  /\ jobs (state_of (start w s)) = jobs s
  /\ chat_data_job (state_of (start w s)) = chat_data_job s
  /\ http_gets (trace_of (start w s)) = []
  /\ edit_calls (trace_of (start w s)) = []
  /\ (exists pre, trace_of (start w s) = (pre ++ [EvReplyText (error_message e)])%list)
  /\ outcome_of (start w s) = message_reply_text w (error_message e).
Proof.
  intros Hchat Hsend Hjob.
  rewrite (start_without_timer w s chat mid e Hchat Hsend Hjob).
  unfold state_of, trace_of, outcome_of. simpl.
  repeat split.
  exists (unarmed_calls chat mid e). reflexivity.
Qed.

(** X14. An exception leaves [start] only through the error reply: if the
    reply goes through, the handler returns normally whatever else failed;
    in general its outcome is a normal return or the outcome of the reply
    it ended with. *)
Theorem start_raises_only_through_reply (w : world) (s : state) :
  (outcome_of (start w s) = Return tt
   \/ exists e, outcome_of (start w s) = message_reply_text w (error_message e)
                /\ exists pre, trace_of (start w s) =
                                 (pre ++ [EvReplyText (error_message e)])%list)
  /\ ((forall body, message_reply_text w body = Return tt) ->
      outcome_of (start w s) = Return tt).
Proof.
  assert (Hcases : outcome_of (start w s) = Return tt
                   \/ exists e, outcome_of (start w s) = message_reply_text w (error_message e)
                                /\ exists pre, trace_of (start w s) =
                                                 (pre ++ [EvReplyText (error_message e)])%list).
  { destruct (start_decides w)
      as [[e Hraises] | [(chat & mid & e & Hchat & Hsend & Hjob)
                        | (chat & mid & Hchat & Hsend & Hjob)]].
    - right. exists e. destruct (start_fails w s e Hraises) as (pre & _ & ->).
      split; [ reflexivity | exists pre; reflexivity ].
    - right. exists e. rewrite (start_without_timer w s chat mid e Hchat Hsend Hjob).
      split; [ reflexivity | exists (unarmed_calls chat mid e); reflexivity ].
    - left. rewrite (start_runs_update w s chat mid Hchat Hsend Hjob). reflexivity. }
  split; [ exact Hcases | ].
  intro Hreply. destruct Hcases as [H | (e & H & _)]; [ exact H | ].
  rewrite H. apply Hreply.
Qed.

(** *** The running process *)

Lemma job_fires_frames (s : state) (w : world) : fst (step s (JobFires w)) = s.
Proof.
  simpl. destruct (jobs s) eqn:Hjobs; [ reflexivity | ].
  cbn [fst]. apply update_price_frames.
Qed.

(** What a start command does to the tracked identifier, the jobs and the
    trace, in each of its three ways. *)
Lemma start_effect (w : world) (s : state) :
  (sent_id (CmdStart w) = []
   /\ state_of (start w s) = s
   /\ (exists pre e, Forall bootstrap_event pre
                     /\ trace_of (start w s) = (pre ++ [EvReplyText (error_message e)])%list))
  \/ (exists chat mid e,
        sent_id (CmdStart w) = [mid]
        /\ state_of (start w s) =
             {| message_id := mid; jobs := jobs s; chat_data_job := chat_data_job s |}
        /\ trace_of (start w s) =
             (unarmed_calls chat mid e ++ [EvReplyText (error_message e)])%list)
  \/ (exists chat mid,
        sent_id (CmdStart w) = [mid]
        /\ state_of (start w s) = bootstrapped s mid
        /\ trace_of (start w s) =
             (bootstrap_calls chat mid ++ trace_of (update_price w (bootstrapped s mid)) ++
              [EvLog DEBUG [Lit "Initial price update completed"]])%list).
Proof.
  destruct (start_decides w)
    as [[e Hraises] | [(chat & mid & e & Hchat & Hsend & Hjob)
                      | (chat & mid & Hchat & Hsend & Hjob)]].
  - left. destruct (start_fails w s e Hraises) as (pre & Hpre & ->).
    split; [ | split; [ reflexivity | exists pre, e; split; [ exact Hpre | reflexivity ] ] ].
    unfold sent_id. destruct Hraises as [-> | chat -> ->]; reflexivity.
  - right. left. exists chat, mid, e.
    rewrite (start_without_timer w s chat mid e Hchat Hsend Hjob).
    unfold sent_id. rewrite Hchat, Hsend. repeat split.
  - right. right. exists chat, mid.
    rewrite (start_runs_update w s chat mid Hchat Hsend Hjob).
    unfold sent_id. rewrite Hchat, Hsend. repeat split.
Qed.

Lemma acts_after_send_true (t : list event) : acts_after_send true t = true.
Proof. induction t as [| ev t IH]; [ reflexivity | destruct ev; simpl; exact IH ]. Qed.

Lemma acts_after_send_app (b : bool) (t1 t2 : list event) :
  acts_after_send b (t1 ++ t2) =
  acts_after_send b t1 && acts_after_send (b || existsb is_send t1) t2.
Proof.
  revert b. induction t1 as [| ev t1 IH]; intro b; simpl.
  - rewrite orb_false_r. reflexivity.
  - destruct ev; simpl; rewrite ?IH, ?orb_false_l, ?andb_assoc; try reflexivity.
    rewrite !acts_after_send_true, orb_true_r, acts_after_send_true. reflexivity.
Qed.

Lemma quiet_events_pass (b : bool) (t : list event) :
  Forall (fun ev => is_edit ev = false /\ is_run_repeating ev = false) t ->
  acts_after_send b t = true.
Proof.
  intro H. revert b. induction H as [| ev t [He Hr] _ IH]; intro b; [ reflexivity | ].
  destruct ev; simpl in *; try discriminate; apply IH.
Qed.

Lemma bootstrap_events_are_calm (pre : list event) :
  Forall bootstrap_event pre ->
  Forall (fun ev => is_edit ev = false /\ is_run_repeating ev = false) pre.
Proof.
  apply Forall_impl. intros ev [Hlog | [-> | ->]]; [ destruct ev; try discriminate Hlog | | ];
    split; reflexivity.
Qed.

Lemma falsy_tick_is_calm (w : world) (s : state) (b : bool) :
  (Py.truthy (message_id s) = true -> b = true) ->
  acts_after_send b (trace_of (update_price w s)) = true.
Proof.
  intro Hb. destruct (Py.truthy (message_id s)) eqn:Hid.
  - rewrite (Hb eq_refl). apply acts_after_send_true.
  - rewrite (update_price_falsy w s Hid). reflexivity.
Qed.

(** One stimulus keeps the order, and a tracked identifier goes with a
    message sent before. *)
Lemma step_keeps_order (s : state) (x : stimulus) (b : bool) :
  (Py.truthy (message_id s) = true -> b = true) ->
  acts_after_send b (snd (step s x)) = true
  /\ (Py.truthy (message_id (fst (step s x))) = true ->
      b || existsb is_send (snd (step s x)) = true).
Proof.
  intro Hb. destruct x as [w | w]; simpl.
  - destruct (start_effect w s)
      as [(_ & -> & pre & e & Hpre & ->)
         | [(chat & mid & e & _ & -> & ->) | (chat & mid & _ & -> & ->)]].
    + split.
      * apply quiet_events_pass. apply Forall_app. split.
        -- apply bootstrap_events_are_calm. exact Hpre.
        -- repeat constructor.
      * intro Hid. rewrite (Hb Hid). reflexivity.
    + split; [ destruct b; reflexivity | intros _; apply orb_true_r ].
    + split.
      * unfold bootstrap_calls. simpl. destruct b; apply acts_after_send_true.
      * intros _. unfold bootstrap_calls. simpl. apply orb_true_r.
  - destruct (jobs s) eqn:Hjobs.
    + split; [ reflexivity | intro Hid; rewrite (Hb Hid); reflexivity ].
    + cbn [fst snd]. rewrite update_price_frames. split.
      * apply falsy_tick_is_calm. exact Hb.
      * intro Hid. rewrite (Hb Hid). reflexivity.
Qed.

Lemma run_keeps_order (xs : list stimulus) (s : state) (b : bool) :
  (Py.truthy (message_id s) = true -> b = true) ->
  acts_after_send b (snd (run s xs)) = true.
Proof.
  revert s b. induction xs as [| x xs IH]; intros s b Hb; [ reflexivity | ].
  rewrite run_cons. cbn [snd].
  destruct (step_keeps_order s x b Hb) as [Hstep Hnext].
  rewrite acts_after_send_app, Hstep. simpl. apply IH. exact Hnext.
Qed.

Lemma order_at_split (t1 t2 : list event) (ev : event) :
  acts_after_send false (t1 ++ ev :: t2) = true ->
  is_edit ev = true \/ is_run_repeating ev = true ->
  exists chat_id body, In (EvSendMessage chat_id body) t1.
Proof.
  intros Hok Hev. rewrite acts_after_send_app in Hok.
  apply andb_prop in Hok. destruct Hok as [_ Hok]. simpl in Hok.
  assert (Hsent : existsb is_send t1 = true).
  { destruct ev; destruct Hev as [Hev | Hev]; try discriminate Hev; simpl in Hok;
      apply andb_prop in Hok; destruct Hok as [Hok _]; exact Hok. }
  apply existsb_exists in Hsent. destruct Hsent as (sent & Hin & Hsend).
  destruct sent; try discriminate Hsend. eexists. eexists. exact Hin.
Qed.

(** X16. In every run of the process, an edit call or the arming of a timer
    comes after a message was sent: the bot never edits, and never
    schedules updates, before it has sent its placeholder. *)
Theorem no_edit_or_timer_before_a_send (xs : list stimulus) (t1 t2 : list event)
    (ev : event) :
  snd (main xs) = (t1 ++ ev :: t2)%list ->
  is_edit ev = true \/ is_run_repeating ev = true ->
  exists chat_id body, In (EvSendMessage chat_id body) t1.
Proof.
  intros Htrace Hev. apply (order_at_split t1 t2 ev); [ | exact Hev ].
  rewrite <- Htrace. unfold main.
  pose proof (run_keeps_order xs initial_state false ltac:(discriminate)) as Hrun.
  destruct (run initial_state xs) as [s t]. exact Hrun.
Qed.

Lemma update_price_edit_target (w : world) (s : state) (c : string) (m : pyval)
    (body : string) :
  In (EvEditMessageText c m body) (trace_of (update_price w s)) ->
  c = CHANNEL_ID /\ m = message_id s /\ Py.truthy (message_id s) = true.
Proof.
  intro Hin.
  assert (Hcalls : In (EvEditMessageText c m body) (edit_calls (trace_of (update_price w s))))
    by (apply filter_In; split; [ exact Hin | reflexivity ]).
  destruct (update_price_edit_calls w s) as [Hnone | (Hid & body' & Hone)].
  - rewrite Hnone in Hcalls. contradiction.
  - rewrite Hone in Hcalls. destruct Hcalls as [Heq | []].
    inversion Heq. repeat split. exact Hid.
Qed.

Lemma start_edit_target (w : world) (s : state) (c : string) (m : pyval) (body : string) :
  In (EvEditMessageText c m body) (trace_of (start w s)) ->
  c = CHANNEL_ID /\ sent_id (CmdStart w) = [m].
Proof.
  intro Hin.
  destruct (start_effect w s)
    as [(_ & _ & pre & e & Hpre & Htrace)
       | [(chat & mid & e & _ & _ & Htrace) | (chat & mid & Hsent & _ & Htrace)]];
    rewrite Htrace in Hin.
  - exfalso. apply in_app_or in Hin. destruct Hin as [Hin | [Heq | []]]; [ | discriminate Heq ].
    rewrite Forall_forall in Hpre. destruct (Hpre _ Hin) as [H | [H | H]]; discriminate H.
  - exfalso. apply in_app_or in Hin. destruct Hin as [Hin | [Heq | []]]; [ | discriminate Heq ].
    unfold unarmed_calls in Hin. simpl in Hin.
    repeat (destruct Hin as [Heq | Hin]; [ discriminate Heq | ]). exact Hin.
  - apply in_app_or in Hin. destruct Hin as [Hin | Hin].
    { exfalso. unfold bootstrap_calls in Hin. simpl in Hin.
      repeat (destruct Hin as [Heq | Hin]; [ discriminate Heq | ]). exact Hin. }
    apply in_app_or in Hin. destruct Hin as [Hin | [Heq | []]]; [ | discriminate Heq ].
    destruct (update_price_edit_target _ _ _ _ _ Hin) as (-> & -> & _).
    split; [ reflexivity | exact Hsent ].
Qed.

Lemma step_message_id (s : state) (x : stimulus) :
  message_id (fst (step s x)) = message_id s
  \/ sent_id x = [message_id (fst (step s x))].
Proof.
  destruct x as [w | w]; [ simpl | left; rewrite job_fires_frames; reflexivity ].
  - destruct (start_effect w s)
      as [(_ & -> & _) | [(chat & mid & e & Hsent & -> & _) | (chat & mid & Hsent & -> & _)]].
    + left. reflexivity.
    + right. exact Hsent.
    + right. exact Hsent.
Qed.

Lemma run_edit_targets (xs : list stimulus) (s : state) (known : list pyval)
    (c : string) (m : pyval) (body : string) :
  (Py.truthy (message_id s) = true -> In (message_id s) known) ->
  In (EvEditMessageText c m body) (snd (run s xs)) ->
  c = CHANNEL_ID /\ In m (known ++ flat_map sent_id xs)%list.
Proof.
  revert s known. induction xs as [| x xs IH]; intros s known Hknown Hin.
  - contradiction.
  - rewrite run_cons in Hin. cbn [snd] in Hin. apply in_app_or in Hin.
    cbn [flat_map]. destruct Hin as [Hin | Hin].
    + destruct x as [w | w]; simpl in Hin.
      * destruct (start_edit_target w s c m body Hin) as [-> Hsent].
        split; [ reflexivity | ]. rewrite Hsent.
        apply in_or_app. right. left. reflexivity.
      * destruct (jobs s); [ contradiction | ].
        destruct (update_price_edit_target w s c m body Hin) as (-> & -> & Hid).
        split; [ reflexivity | ]. apply in_or_app. left. exact (Hknown Hid).
    + rewrite app_assoc. apply (IH (fst (step s x))); [ | exact Hin ].
      intro Hid. destruct (step_message_id s x) as [Hsame | Hsent].
      * apply in_or_app. left. rewrite Hsame in *. exact (Hknown Hid).
      * apply in_or_app. right. rewrite Hsent. left. reflexivity.
Qed.

(** X17. In every run of the process, each edit call is for the configured
    channel and for a message identifier that a start command of that run
    got back from sending its placeholder: the bot only edits messages it
    has sent itself. *)
Theorem bot_edits_only_its_own_messages (xs : list stimulus) (c : string) (m : pyval)
    (body : string) :
  In (EvEditMessageText c m body) (snd (main xs)) ->
  c = CHANNEL_ID /\ In m (flat_map sent_id xs).
Proof.
  intro Hin. unfold main in Hin.
  assert (Hrun : In (EvEditMessageText c m body) (snd (run initial_state xs))).
  { destruct (run initial_state xs) as [s t]. simpl in *.
    destruct Hin as [Heq | [Heq | Hin]]; [ discriminate Heq | discriminate Heq | exact Hin ]. }
  exact (run_edit_targets xs initial_state [] c m body ltac:(discriminate) Hrun).
Qed.

Lemma step_jobs (s : state) (x : stimulus) :
  jobs (fst (step s x)) = jobs s
  \/ (is_start x = true /\ jobs (fst (step s x)) = (jobs s ++ [five_minutes])%list).
Proof.
  destruct x as [w | w]; [ simpl | left; rewrite job_fires_frames; reflexivity ].
  destruct (start_effect w s)
    as [(_ & -> & _) | [(chat & mid & e & _ & -> & _) | (chat & mid & _ & -> & _)]].
  - left. reflexivity.
  - left. reflexivity.
  - right. split; reflexivity.
Qed.

(** X18. An armed job is never removed or changed: after any run the job
    queue is the one before, followed by jobs that all fire every 300
    seconds from time 0 on, at most one for each start command served. *)
Theorem jobs_only_accumulate (xs : list stimulus) (s : state) :
  exists more : list job,
    jobs (fst (run s xs)) = (jobs s ++ more)%list
    /\ Forall (fun j => j = {| interval := 300; first := 0 |}) more
    /\ (List.length more <= List.length (filter is_start xs))%nat.
Proof.
  revert s. induction xs as [| x xs IH]; intro s.
  - exists []. simpl. rewrite app_nil_r. repeat split; constructor.
  - rewrite run_cons. cbn [fst].
    destruct (IH (fst (step s x))) as (more & Hjobs & Hall & Hlen).
    destruct (step_jobs s x) as [Hsame | [Hstart Hgrown]].
    + exists more. rewrite Hjobs, Hsame.
      split; [ reflexivity | split; [ exact Hall | ] ].
      simpl. destruct (is_start x); simpl; lia.
    + exists (five_minutes :: more). rewrite Hjobs, Hgrown, <- app_assoc.
      split; [ reflexivity | split ].
      * constructor; [ reflexivity | exact Hall ].
      * simpl. rewrite Hstart. simpl. lia.
Qed.

(** X15. Two start commands in a row that both succeed send two messages
    and arm two timers; the identifier tracked afterwards is the one of the
    second message, the first message is edited no more. *)
Theorem second_start_takes_over (w1 w2 : world) (s : state) (chat1 chat2 : string)
    (mid1 mid2 : pyval) :
  bot_get_chat w1 CHANNEL_ID = Return chat1 ->
  bot_send_message w1 CHANNEL_ID "Starting price updates..." = Return mid1 ->
  job_queue_run_repeating w1 {| interval := 300; first := 0 |} = Return tt ->
  bot_get_chat w2 CHANNEL_ID = Return chat2 ->
  bot_send_message w2 CHANNEL_ID "Starting price updates..." = Return mid2 ->
  job_queue_run_repeating w2 {| interval := 300; first := 0 |} = Return tt ->
  message_id (fst (run s [CmdStart w1; CmdStart w2])) = mid2
  /\ jobs (fst (run s [CmdStart w1; CmdStart w2])) =
       (jobs s ++ [{| interval := 300; first := 0 |}; {| interval := 300; first := 0 |}])%list
  /\ List.length (sends (snd (run s [CmdStart w1; CmdStart w2]))) = 2%nat
  /\ List.length (timers_armed (snd (run s [CmdStart w1; CmdStart w2]))) = 2%nat
  /\ forall (later : list world) (c : string) (m : pyval) (body : string),
       In (EvEditMessageText c m body)
          (snd (run (fst (run s [CmdStart w1; CmdStart w2])) (map JobFires later))) ->
       m = mid2.
Proof.
  intros Hc1 Hs1 Hj1 Hc2 Hs2 Hj2.
  pose proof (start_runs_update w1 s chat1 mid1 Hc1 Hs1 Hj1) as Hrun1.
  pose proof (start_runs_update w2 (bootstrapped s mid1) chat2 mid2 Hc2 Hs2 Hj2) as Hrun2.
  assert (Hstep1 : step s (CmdStart w1) = (state_of (start w1 s), trace_of (start w1 s)))
    by reflexivity.
  assert (Hstep2 : step (bootstrapped s mid1) (CmdStart w2) =
                   (state_of (start w2 (bootstrapped s mid1)),
                    trace_of (start w2 (bootstrapped s mid1)))) by reflexivity.
  assert (Hstate : fst (run s [CmdStart w1; CmdStart w2]) =
                   bootstrapped (bootstrapped s mid1) mid2).
  { rewrite run_cons, Hstep1, Hrun1. cbn [fst state_of snd].
    rewrite run_cons, Hstep2, Hrun2. reflexivity. }
  assert (Htrace : snd (run s [CmdStart w1; CmdStart w2]) =
                   (trace_of (start w1 s) ++ trace_of (start w2 (bootstrapped s mid1)))%list).
  { rewrite run_cons, Hstep1. cbn [fst snd]. rewrite Hrun1 at 2. cbn [state_of fst snd].
    rewrite run_cons, Hstep2. cbn [fst snd run]. rewrite app_nil_r. reflexivity. }
  rewrite Hstate, Htrace.
  assert (Hcount : forall (w : world) (s0 : state) (chat : string) (mid : pyval),
             start w s0 =
               (Return tt, bootstrapped s0 mid,
                (bootstrap_calls chat mid ++ trace_of (update_price w (bootstrapped s0 mid)) ++
                 [EvLog DEBUG [Lit "Initial price update completed"]])%list) ->
             List.length (sends (trace_of (start w s0))) = 1%nat
             /\ List.length (timers_armed (trace_of (start w s0))) = 1%nat).
  { intros w s0 chat mid Hrun. rewrite Hrun. unfold trace_of at 1 3. cbn [snd].
    destruct (tick_events_hold_no_send _ (update_price_tick_events w (bootstrapped s0 mid)))
      as [Hs Ht].
    unfold sends, timers_armed in *. rewrite !filter_app, Hs, Ht. split; reflexivity. }
  destruct (Hcount w1 s chat1 mid1 Hrun1) as [Hsend1 Htimer1].
  destruct (Hcount w2 (bootstrapped s mid1) chat2 mid2 Hrun2) as [Hsend2 Htimer2].
  split; [ reflexivity | ].
  split; [ simpl; rewrite <- app_assoc; reflexivity | ].
  unfold sends, timers_armed in *.
  rewrite !filter_app, !length_app, Hsend1, Hsend2, Htimer1, Htimer2.
  split; [ reflexivity | split; [ reflexivity | ] ].
  intros later c m body Hin.
  assert (Hticks : forall ws s0, message_id s0 = mid2 ->
             In (EvEditMessageText c m body) (snd (run s0 (map JobFires ws))) -> m = mid2).
  { induction ws as [| w ws IH]; intros s0 Hid Hedit; [ contradiction | ].
    cbn [map] in Hedit. rewrite run_cons in Hedit. cbn [snd] in Hedit.
    pose proof (job_fires_frames s0 w) as Hsame.
    apply in_app_or in Hedit. destruct Hedit as [Hedit | Hedit].
    - simpl in Hedit. destruct (jobs s0); [ contradiction | ].
      destruct (update_price_edit_target w s0 c m body Hedit) as (_ & -> & _). exact Hid.
    - rewrite Hsame in Hedit. exact (IH s0 Hid Hedit). }
  apply (Hticks later (bootstrapped (bootstrapped s mid1) mid2)); [ reflexivity | exact Hin ].
Qed.

End Coverage.

(** *** The module body *)

Section ModuleBody.

Lemma code_points_aux_join (s : string) :
  fst (Py.code_points_aux s) ++ join (snd (Py.code_points_aux s)) = s.
Proof.
  induction s as [| c r IH]; [ reflexivity | ].
  simpl. destruct (Py.code_points_aux r) as [pending chars]. simpl in IH.
  destruct (Py.is_continuation c); simpl; rewrite IH; reflexivity.
Qed.

(** Cutting a str into code points loses nothing. *)
Lemma join_code_points (s : string) : join (Py.code_points s) = s.
Proof.
  unfold Py.code_points. pose proof (code_points_aux_join s) as H.
  destruct (Py.code_points_aux s) as [pending chars]. simpl in H.
  destruct pending; exact H.
Qed.

Lemma code_points_aux_nonempty (s : string) :
  Forall (fun c => c <> EmptyString) (snd (Py.code_points_aux s)).
Proof.
  induction s as [| c r IH]; [ constructor | ].
  simpl. destruct (Py.code_points_aux r) as [pending chars]. simpl in IH.
  destruct (Py.is_continuation c); simpl; [ exact IH | ].
  constructor; [ discriminate | exact IH ].
Qed.

Lemma code_points_nonempty (s : string) :
  Forall (fun c => c <> EmptyString) (Py.code_points s).
Proof.
  unfold Py.code_points. pose proof (code_points_aux_nonempty s) as H.
  destruct (Py.code_points_aux s) as [pending chars]. simpl in H.
  destruct pending; [ exact H | constructor; [ discriminate | exact H ] ].
Qed.

Lemma is_prefix_append_same (a x y : string) : is_prefix (a ++ x) (a ++ y) = is_prefix x y.
Proof.
  induction a as [| c a IH]; simpl; [ reflexivity | ].
  rewrite Ascii.eqb_refl. exact IH.
Qed.

Lemma is_prefix_nil (y : string) : is_prefix EmptyString y = true.
Proof. destruct y; reflexivity. Qed.

Lemma join_firstn_is_prefix (n : nat) (parts : list string) :
  is_prefix (join (firstn n parts)) (join parts) = true.
Proof.
  revert parts. induction n as [| n IH]; intros [| x parts]; cbn [firstn join];
    try apply is_prefix_nil.
  rewrite is_prefix_append_same. apply IH.
Qed.

Lemma join_firstn_is_shorter (n : nat) (parts : list string) :
  Forall (fun c => c <> EmptyString) parts ->
  (n < List.length parts)%nat ->
  (String.length (join (firstn n parts)) < String.length (join parts))%nat.
Proof.
  intro Hall. revert n. induction Hall as [| x parts Hx _ IH]; intros n Hn; simpl in Hn.
  - lia.
  - destruct n as [| n]; simpl; rewrite ?length_append.
    + destruct x; [ congruence | simpl; lia ].
    + pose proof (IH n ltac:(lia)). lia.
Qed.

Lemma slice_to_is_prefix (n : nat) (s : string) : is_prefix (slice_to n s) s = true.
Proof.
  unfold slice_to. rewrite <- (join_code_points s) at 2. apply join_firstn_is_prefix.
Qed.

Lemma slice_to_is_shorter (n : nat) (s : string) :
  (n < List.length (Py.code_points s))%nat ->
  (String.length (slice_to n s) < String.length s)%nat.
Proof.
  intro Hlong. unfold slice_to. rewrite <- (join_code_points s) at 2.
  apply join_firstn_is_shorter; [ apply code_points_nonempty | exact Hlong ].
Qed.

(** X1. The module loads only when both environment variables hold a
    non-empty str: a missing or empty token raises ValueError before the
    channel id is looked at, a missing or empty channel id raises next.  The
    log of a load shows the channel id and the first five characters of the
    token at most, never the whole of a longer token. *)
Theorem module_body_checks_configuration (env : environ) :
  (forall TOKEN c t,
      module_body env = (Return (TOKEN, c), t) ->
      TELEGRAM_BOT_TOKEN env = Some TOKEN /\ TOKEN <> EmptyString
      /\ TELEGRAM_CHANNEL_ID env = Some (@CHANNEL_ID c) /\ @CHANNEL_ID c <> EmptyString
      /\ t = [EvLog DEBUG [Lit "Bot token: "; Lit (slice_to 5 TOKEN); Lit "..."];
              EvLog DEBUG [Lit "Channel ID: "; Lit (@CHANNEL_ID c)]]
      /\ is_prefix (slice_to 5 TOKEN) TOKEN = true
      /\ ((5 < List.length (Py.code_points TOKEN))%nat ->
          (String.length (slice_to 5 TOKEN) < String.length TOKEN)%nat))
  /\ (TELEGRAM_BOT_TOKEN env = None \/ TELEGRAM_BOT_TOKEN env = Some EmptyString ->
      module_body env =
        (Raise (Exn ValueError "Please set the TELEGRAM_BOT_TOKEN environment variable"), []))
  /\ (forall TOKEN,
        TELEGRAM_BOT_TOKEN env = Some TOKEN -> TOKEN <> EmptyString ->
        TELEGRAM_CHANNEL_ID env = None \/ TELEGRAM_CHANNEL_ID env = Some EmptyString ->
        module_body env =
          (Raise (Exn ValueError "Please set the TELEGRAM_CHANNEL_ID environment variable"),
           [])).
Proof.
  unfold module_body. split; [ | split ].
  - intros TOKEN c t H.
    destruct (TELEGRAM_BOT_TOKEN env) as [[| a tok] |]; try discriminate H.
    destruct (TELEGRAM_CHANNEL_ID env) as [[| b ch] |]; try discriminate H.
    inversion H; subst. cbn [CHANNEL_ID].
    split; [ reflexivity | split; [ discriminate | split; [ reflexivity | ] ] ].
    split; [ discriminate | split; [ reflexivity | split ] ].
    + apply slice_to_is_prefix.
    + apply slice_to_is_shorter.
  - intros [-> | ->]; reflexivity.
  - intros TOKEN -> Hne [-> | ->]; destruct TOKEN; congruence.
Qed.

End ModuleBody.

(** ** The properties at concrete inputs *)

Section Witnesses.

#[local] Existing Instance prices_channel.
#[local] Existing Instance decimal_builtins.

Lemma market_failure_aborts_tick_witness :
  edit_calls (trace_of (update_price Scenario.market_down Scenario.tracking)) = []
  /\ message_id (state_of (update_price Scenario.market_down Scenario.tracking)) = VInt 42
  /\ outcome_of (update_price Scenario.market_down Scenario.tracking) = Return tt.
Proof.
  apply (market_failure_aborts_tick Scenario.market_down Scenario.tracking).
  - reflexivity.
  - apply (market_bad_status Scenario.market_down Scenario.unavailable).
    + reflexivity.
    + simpl. lia.
Defined.

Lemma book_failure_falls_back_to_50000_witness :
  outcome_of (get_usdt_irr_rate Scenario.book_down Scenario.tracking) = Return (VInt 50000)
  /\ edit_calls (trace_of (update_price Scenario.book_down Scenario.tracking)) =
       [EvEditMessageText "@prices" (VInt 42)
          (price_block "65,000.00" "3,200.00" "150.00" "50,000")]
  /\ outcome_of (update_price Scenario.book_down Scenario.tracking) = Return tt.
Proof.
  destruct (book_failure_falls_back_to_50000 Scenario.book_down Scenario.tracking)
    as (Hrate & _ & _ & Htick).
  - apply (book_request_raises Scenario.book_down Scenario.network_down).
    reflexivity.
  - split; [ exact Hrate | ].
    apply (Htick (VInt 65000) (VInt 3200) (VInt 150) (VInt 1)).
    + reflexivity.
    + exists (Scenario.ok Scenario.market_body), Scenario.market_body.
      repeat split; reflexivity.
    + vm_compute. reflexivity.
Defined.

Lemma book_rate_is_mean_of_best_bid_and_ask_witness :
  outcome_of (get_usdt_irr_rate Scenario.calm Scenario.tracking) =
    Return (VFloat (Float64.div (Float64.add (Float64.of_Z 58400) (Float64.of_Z 58600))
                                (Float64.of_Z 2))).
Proof.
  apply (book_rate_is_mean_of_best_bid_and_ask Scenario.calm Scenario.tracking
           (Scenario.ok Scenario.book_body)
           [("status", VStr "ok");
            ("bids", VList [VList [VStr "58400"; VStr "120.5"];
                            VList [VStr "58390"; VStr "3"]]);
            ("asks", VList [VList [VStr "58600"; VStr "77.25"];
                            VList [VStr "58610"; VStr "9"]])]
           (VStr "58400") (VStr "58600") [VStr "120.5"] [VStr "77.25"]
           [VList [VStr "58390"; VStr "3"]] [VList [VStr "58610"; VStr "9"]]);
    vm_compute; reflexivity.
Defined.

Lemma update_price_without_message_is_noop_witness :
  update_price Scenario.calm initial_state =
    (Return tt, initial_state, [EvLog DEBUG [Lit "No message ID available for update"]])
  /\ http_gets (trace_of (update_price Scenario.calm initial_state)) = []
  /\ edit_calls (trace_of (update_price Scenario.calm initial_state)) = [].
Proof.
  apply (update_price_without_message_is_noop Scenario.calm initial_state).
  reflexivity.
Defined.

(** C5, as stated, fails: a market body that quotes bitcoin at an infinite
    float gives a successful tick whose text shows [$inf], which is no
    number with two decimal places. *)
Lemma infinite_price_is_rendered_by_name :
  successful_tick Scenario.overflowing Scenario.tracking
    (price_block "inf" "3,200.00" "150.00" "58,500")
  /\ ~ (exists b e so r : string,
          price_block "inf" "3,200.00" "150.00" "58,500" = price_block b e so r
          /\ fixed_point 2 b /\ fixed_point 2 e /\ fixed_point 2 so /\ fixed_point 0 r).
Proof.
  split.
  - split; vm_compute; reflexivity.
  - intros (b & e & so & r & Heq & Hb & _).
    destruct Hb as (neg & whole & frac & -> & (g0 & gs & -> & Hlen & Hdig & _) & _).
    unfold price_block in Heq. simpl in Heq.
    destruct neg; simpl in Heq; [ discriminate Heq | ].
    destruct g0 as [| c g0]; simpl in *; [ lia | ].
    inversion Heq; subst c. discriminate Hdig.
Qed.

Lemma price_block_rendering_witness :
  exists (btc eth sol usdt rate : pyval) (b e so r : string),
    market_quotes Scenario.calm btc eth sol usdt
    /\ outcome_of (get_usdt_irr_rate Scenario.calm Scenario.tracking) = Return rate
    /\ Fmt.format_f 2 btc = Return b /\ Fmt.format_f 2 eth = Return e
    /\ Fmt.format_f 2 sol = Return so /\ Fmt.format_f 0 rate = Return r
    /\ price_block "65,000.00" "3,200.00" "150.00" "58,500" = price_block b e so r
    /\ (finite_number btc -> fixed_point 2 b)
    /\ (finite_number eth -> fixed_point 2 e)
    /\ (finite_number sol -> fixed_point 2 so)
    /\ (finite_number rate -> fixed_point 0 r).
Proof.
  apply (proj1 price_block_rendering Scenario.calm Scenario.tracking).
  split; vm_compute; reflexivity.
Defined.


(** C7, as stated, fails: no run of the process requests the exchange-rates
    endpoint. *)
Lemma no_run_fetches_exchange_rates :
  ~ (exists (cfg : Config) (bi : Py.Builtins) (xs : list stimulus),
        In (EvHttpGet EXCHANGE_RATES_URL) (snd (@main cfg bi xs))).
Proof.
  intros (cfg & bi & xs & Hin).
  pose proof (@main_skips_exchange_rates cfg bi xs) as Hall.
  rewrite Forall_forall in Hall. exact (Hall _ Hin eq_refl).
Qed.

Lemma bootstrap_failure_is_reported_witness :
  (exists pre, Forall bootstrap_event pre
               /\ trace_of (start (Scenario.with_get_chat Scenario.calm
                                     (fun _ => Raise Scenario.forbidden)) initial_state) =
                    (pre ++ [EvReplyText (error_message Scenario.forbidden)])%list)
  /\ timers_armed (trace_of (start (Scenario.with_get_chat Scenario.calm
                                      (fun _ => Raise Scenario.forbidden)) initial_state)) = []
  /\ state_of (start (Scenario.with_get_chat Scenario.calm
                        (fun _ => Raise Scenario.forbidden)) initial_state) = initial_state.
Proof.
  destruct (bootstrap_failure_is_reported
              (Scenario.with_get_chat Scenario.calm (fun _ => Raise Scenario.forbidden))
              initial_state Scenario.forbidden)
    as (Hreply & _ & Htimers & _ & _ & Hstate & _).
  - apply get_chat_raises. reflexivity.
  - split; [ exact Hreply | split; [ exact Htimers | exact Hstate ] ].
Defined.

Lemma only_start_writes_message_id_witness :
  message_id (state_of (update_price Scenario.calm Scenario.tracking)) = VInt 42
  /\ exists w, CmdStart Scenario.calm = CmdStart w.
Proof.
  destruct only_start_writes_message_id as [Hread Hwrite].
  split.
  - apply (Hread Scenario.calm Scenario.tracking).
  - apply (Hwrite initial_state (CmdStart Scenario.calm)).
    vm_compute. discriminate.
Defined.

Lemma falsy_message_id_disables_updates_witness :
  message_id (state_of (start (Scenario.with_send Scenario.calm (fun _ _ => Return (VInt 0)))
                          initial_state)) = VInt 0
  /\ edit_calls (trace_of (start (Scenario.with_send Scenario.calm
                                    (fun _ _ => Return (VInt 0))) initial_state)) = [].
Proof.
  destruct (falsy_message_id_disables_updates
              (Scenario.with_send Scenario.calm (fun _ _ => Return (VInt 0)))
              initial_state "Chat(id=-1001, type=channel)" (VInt 0))
    as (_ & Hid & _ & Hedit & _); try reflexivity.
  split; [ exact Hid | exact Hedit ].
Defined.

(** *** The model at work *)

Example format_examples :
  map (fun x => Fmt.format_float 2 (Float64.div (Float64.of_Z (fst x)) (Float64.of_Z (snd x))))
      [(1, 8); (3, 8); (5, 2); (-1, 1000); (-1234567, 1000); (10 ^ 30, 1); (0, 1)]
  = ["0.12"; "0.38"; "2.50"; "-0.00"; "-1,234.57";
     "1,000,000,000,000,000,019,884,624,838,656.00"; "0.00"]
  /\ map (Fmt.format_f 0) [VFloat (Float64.div (Float64.of_Z 5) (Float64.of_Z 2));
                           VInt 50000; VBool true; VFloat S754_nan]
     = [Return "2"; Return "50,000"; Return "1"; Return "nan"].
Proof. split; vm_compute; reflexivity. Qed.

Example float_of_str_examples :
  map Decimal.float_of_str ["58400"; "0.1"; "-1.5e3"; "1e999"; "-Infinity"; "1e"; "abc"]
  = [Some (Float64.of_Z 58400);
     Some (S754_finite false 7205759403792794 (-56));
     Some (Float64.of_Z (-1500));
     Some (S754_infinity false);
     Some (S754_infinity true);
     None; None].
Proof. vm_compute. reflexivity. Qed.

(** The first scenario of the specification, call by call. *)
Example calm_tick :
  update_price Scenario.calm Scenario.tracking =
    (Return tt, Scenario.tracking,
     [EvLog DEBUG [Lit "Fetching crypto prices from CoinGecko API"];
      EvHttpGet MARKET_URL;
      EvLog DEBUG [Lit "API Response status: "; Interp (VInt 200)];
      EvLog DEBUG [Lit "Successfully parsed API response"];
      EvHttpGet ORDERBOOK_URL;
      EvDatetimeNow "Asia/Tehran" "%Y-%m-%d %H:%M:%S";
      EvLog DEBUG [Lit "Updating message with new prices"];
      EvEditMessageText "@prices" (VInt 42)
        (price_block "65,000.00" "3,200.00" "150.00" "58,500");
      EvLog DEBUG [Lit "Message updated successfully"]]).
Proof. vm_compute. reflexivity. Qed.

(** Two start commands in a row: two messages are sent, the second
    identifier is the one tracked, two jobs are armed. *)
Example second_start_wins :
  let served := run initial_state
                  [CmdStart Scenario.calm;
                   CmdStart (Scenario.with_send Scenario.calm (fun _ _ => Return (VInt 43)))] in
  message_id (fst served) = VInt 43
  /\ List.length (jobs (fst served)) = 2%nat
  /\ List.length (filter (fun ev => match ev with EvSendMessage _ _ => true | _ => false end)
                    (snd served)) = 2%nat.
Proof. vm_compute. repeat split. Qed.

End Witnesses.

(** ** The further properties at concrete inputs *)

Section CoverageWitnesses.

#[local] Existing Instance prices_channel.
#[local] Existing Instance decimal_builtins.

Lemma exchange_failure_falls_back_to_50000_witness :
  outcome_of (get_exchange_rate Scenario.calm initial_state) = Return (VInt 50000).
Proof.
  apply (exchange_failure_falls_back_to_50000 Scenario.calm initial_state).
  apply (exchange_request_raises Scenario.calm Scenario.network_down).
  reflexivity.
Defined.

Lemma empty_book_falls_back_to_50000_witness :
  outcome_of (get_usdt_irr_rate Cases.empty_book Scenario.tracking) = Return (VInt 50000).
Proof.
  apply (empty_book_falls_back_to_50000 Cases.empty_book Scenario.tracking
           (Scenario.ok Cases.empty_book_body)
           [("status", VStr "ok"); ("bids", VList []);
            ("asks", VList [VList [VStr "58600"; VStr "77.25"]])]).
  - reflexivity.
  - reflexivity.
  - reflexivity.
  - left. right. reflexivity.
Defined.

Lemma calm_quotes :
  market_quotes Scenario.calm (VInt 65000) (VInt 3200) (VInt 150) (VInt 1).
Proof.
  exists (Scenario.ok Scenario.market_body), Scenario.market_body.
  repeat split; reflexivity.
Defined.

Lemma tick_edits_iff_prices_format_witness :
  ((exists body, edit_calls (trace_of (update_price Scenario.calm Scenario.tracking)) =
                   [EvEditMessageText CHANNEL_ID (message_id Scenario.tracking) body])
   <-> formats 2 (VInt 65000) /\ formats 2 (VInt 3200) /\ formats 2 (VInt 150))
  /\ (edit_calls (trace_of (update_price Scenario.calm Scenario.tracking)) = []
      <-> ~ (formats 2 (VInt 65000) /\ formats 2 (VInt 3200) /\ formats 2 (VInt 150))).
Proof.
  apply (tick_edits_iff_prices_format Scenario.calm Scenario.tracking
           (VInt 65000) (VInt 3200) (VInt 150) (VInt 1)).
  - reflexivity.
  - exact calm_quotes.
Defined.

Lemma failed_edit_is_logged_witness :
  exists (pre : list event) (body : string),
    update_price Cases.frozen Scenario.tracking =
      (Return tt, Scenario.tracking,
       (pre ++ [EvEditMessageText CHANNEL_ID (message_id Scenario.tracking) body;
                EvLog ERROR [Lit "Error updating price: "; Lit (exn_str Cases.message_gone)];
                EvLog ERROR [Lit "Error details: "; Lit (exn_str Cases.message_gone)]])%list)
    /\ edit_calls pre = [].
Proof.
  apply (failed_edit_is_logged Cases.frozen Scenario.tracking
           (VInt 65000) (VInt 3200) (VInt 150) (VInt 1) Cases.message_gone).
  - reflexivity.
  - exact calm_quotes.
  - intro body. reflexivity.
  - exists "65,000.00". vm_compute. reflexivity.
  - exists "3,200.00". vm_compute. reflexivity.
  - exists "150.00". vm_compute. reflexivity.
Defined.

Lemma tether_quote_is_not_shown_witness :
  edit_calls (trace_of (update_price Scenario.calm Scenario.tracking)) =
  edit_calls (trace_of (update_price Cases.tether_moved Scenario.tracking)).
Proof.
  apply (tether_quote_is_not_shown Scenario.calm Cases.tether_moved Scenario.tracking
           (VInt 65000) (VInt 3200) (VInt 150) (VInt 1) (VInt 2)).
  - reflexivity.
  - exact calm_quotes.
  - exists (Scenario.ok Cases.tether_moved_body), Cases.tether_moved_body.
    repeat split; reflexivity.
  - reflexivity.
Defined.

Lemma message_has_four_lines_witness :
  count_char (ascii_of_nat 10) (price_block "inf" "3,200.00" "150.00" "58,500") = 3%nat
  /\ count_char "$" (price_block "inf" "3,200.00" "150.00" "58,500") = 3%nat.
Proof.
  apply (message_has_four_lines Scenario.overflowing Scenario.tracking).
  vm_compute. repeat (first [ left; reflexivity | right ]).
Defined.

Lemma bootstrap_then_first_update_witness :
  sends (trace_of (start Scenario.calm initial_state)) =
    [EvSendMessage CHANNEL_ID "Starting price updates..."]
  /\ timers_armed (trace_of (start Scenario.calm initial_state)) =
       [EvRunRepeating {| interval := 300; first := 0 |}].
Proof.
  apply (bootstrap_then_first_update Scenario.calm initial_state
           "Chat(id=-1001, type=channel)" (VInt 42)); reflexivity.
Defined.

Lemma timer_failure_keeps_message_id_witness :
  message_id (state_of (start Cases.timer_refused initial_state)) = VInt 42
  /\ jobs (state_of (start Cases.timer_refused initial_state)) = []
  /\ http_gets (trace_of (start Cases.timer_refused initial_state)) = [].
Proof.
  destruct (timer_failure_keeps_message_id Cases.timer_refused initial_state
              "Chat(id=-1001, type=channel)" (VInt 42) Cases.scheduler_stopped)
    as (Hid & Hjobs & _ & Hgets & _); try reflexivity.
  split; [ exact Hid | split; [ exact Hjobs | exact Hgets ] ].
Defined.

Lemma second_start_takes_over_witness :
  message_id (fst (run initial_state [CmdStart Scenario.calm; CmdStart Cases.again])) = VInt 43
  /\ jobs (fst (run initial_state [CmdStart Scenario.calm; CmdStart Cases.again])) =
       [{| interval := 300; first := 0 |}; {| interval := 300; first := 0 |}].
Proof.
  destruct (second_start_takes_over Scenario.calm Cases.again initial_state
              "Chat(id=-1001, type=channel)" "Chat(id=-1001, type=channel)"
              (VInt 42) (VInt 43))
    as (Hid & Hjobs & _); try reflexivity.
  split; [ exact Hid | exact Hjobs ].
Defined.

Lemma no_edit_or_timer_before_a_send_witness :
  exists chat_id body,
    In (EvSendMessage chat_id body) (firstn 9 (snd (main [CmdStart Scenario.calm]))).
Proof.
  apply (no_edit_or_timer_before_a_send [CmdStart Scenario.calm]
           (firstn 9 (snd (main [CmdStart Scenario.calm])))
           (skipn 10 (snd (main [CmdStart Scenario.calm])))
           (EvRunRepeating {| interval := 300; first := 0 |})).
  - vm_compute. reflexivity.
  - right. reflexivity.
Defined.

Lemma bot_edits_only_its_own_messages_witness :
  "@prices" = CHANNEL_ID /\ In (VInt 42) (flat_map sent_id [CmdStart Scenario.calm]).
Proof.
  apply (bot_edits_only_its_own_messages [CmdStart Scenario.calm] "@prices" (VInt 42)
           (price_block "65,000.00" "3,200.00" "150.00" "58,500")).
  vm_compute. repeat (first [ left; reflexivity | right ]).
Defined.

End CoverageWitnesses.
